(** * task-flow: the user-activity audit log

    A shallow embedding of the server-side user-log controller
    ([createUserLog], [getUserLogs], [deleteUserLog], [deleteMultipleLogs],
    [getUserLogStats]) and of the [UserLog] schema, together with the part
    of the document store the controller talks to: query documents, sort,
    skip/limit, the [$group] stage and the schema validators.  The browser
    side is embedded where it decides something: the API client of the log
    routes, the route table with its two guards ([ProtectedRoute],
    [AuthRedirect]) and the task filter hook ([useFilters]).

    Conventions of the embedding.
    - Instants ([Date]) are integers: milliseconds since the epoch.
    - Identifiers ([ObjectId]) are the strings of their hexadecimal text;
      they are well formed by typing, the cast of a string to an ObjectId is
      not part of the embedding.
    - A JSON field or query parameter that may be missing is an
      [option string]; page and limit are the integers their text denotes.
    - The wall clock is an oracle that is read in sequence: the n-th read of
      a request returns [clock n].
    - An [await] is sequencing in a state-and-exception monad over [World];
      every access to the store or to the user directory leaves an event in
      the world's trace. *)

From stdpp Require Import gmap strings list sorting pretty.
From Stdlib Require Import ZArith Ascii String.

Open Scope Z_scope.

(* ------------------------------------------------------------------ *)
(** ** JavaScript values of the request *)

Module JS.

(** [!!v] for a value that is a string or missing. *)
Definition truthy (v : option string) : bool :=
  match v with
  | Some s => negb (String.eqb s "")
  | None => false
  end.

(** [a || b] where [b] is a string. *)
Definition or_else (a : option string) (b : string) : string :=
  match a with
  | Some s => if String.eqb s "" then b else s
  | None => b
  end.

(** [a || b] where [b] may itself be missing. *)
Definition or_opt (a b : option string) : option string :=
  if truthy a then a else b.

(** [Math.ceil(total / limit)] on integers; a division by zero gives
    [Infinity] or [NaN], which JSON renders as [null]. *)
Definition ceil_div (total limit : Z) : option Z :=
  if limit =? 0 then None else Some (- ((- total) / limit)).

End JS.

(* ------------------------------------------------------------------ *)
(** ** Regular expressions of the store ([$regex])

    The fragment covered: literal characters, [.], an escaped
    non-alphanumeric character, and the greedy quantifiers [*], [+], [?]
    on a single character.  Groups, alternation, classes, anchors, counted
    repetition, lazy and possessive quantifiers are not given a meaning:
    [compile] answers [None] for them, as it does for the patterns the
    store rejects.  Characters are bytes and case folding is that of ASCII,
    so the fragment is exact on ASCII text. *)

Module Regex.

Inductive atom := Lit (c : ascii) | Dot.
Inductive quant := One | Opt | Star | Plus.
Inductive token := TAtom (a : atom) | TQuant (q : quant) | TBad.

Definition item : Type := atom * quant.

Definition metachars : list ascii := list_ascii_of_string "\^$.|?*+()[]{}".

Definition is_meta (c : ascii) : bool := existsb (Ascii.eqb c) metachars.

Definition in_range (lo hi c : ascii) : bool :=
  (N.leb (N_of_ascii lo) (N_of_ascii c) && N.leb (N_of_ascii c) (N_of_ascii hi))%bool.

Definition is_alnum (c : ascii) : bool :=
  (in_range "a" "z" c || in_range "A" "Z" c || in_range "0" "9" c)%bool.

Definition token_of (c : ascii) : token :=
  if Ascii.eqb c "." then TAtom Dot
  else if Ascii.eqb c "*" then TQuant Star
  else if Ascii.eqb c "+" then TQuant Plus
  else if Ascii.eqb c "?" then TQuant Opt
  else if is_meta c then TBad
  else TAtom (Lit c).

Fixpoint lex (p : list ascii) : list token :=
  match p with
  | [] => []
  | c :: rest =>
      if Ascii.eqb c "\" then
        match rest with
        | [] => [TBad]
        | d :: rest' =>
            (if is_alnum d then TBad else TAtom (Lit d)) :: lex rest'
        end
      else token_of c :: lex rest
  end.

Fixpoint group (ts : list token) : option (list item) :=
  match ts with
  | [] => Some []
  | TAtom a :: ts' =>
      match ts' with
      | TQuant q :: ts'' =>
          match ts'' with
          | TQuant _ :: _ => None
          | _ => cons (a, q) <$> group ts''
          end
      | _ => cons (a, One) <$> group ts'
      end
  | TQuant _ :: _ => None
  | TBad :: _ => None
  end.

Definition compile (pattern : string) : option (list item) :=
  group (lex (list_ascii_of_string pattern)).

(** ASCII case folding, the effect of option [i]. *)
Definition fold_case (c : ascii) : ascii :=
  if in_range "A" "Z" c then ascii_of_N (N_of_ascii c + 32) else c.

Definition newline : ascii := ascii_of_N 10.

Definition atom_match (caseless : bool) (a : atom) (c : ascii) : bool :=
  match a with
  | Lit x =>
      if caseless then Ascii.eqb (fold_case x) (fold_case c) else Ascii.eqb x c
  | Dot => negb (Ascii.eqb c newline)
  end.

(** [match_here its s]: the items match a prefix of [s]. *)
Fixpoint match_here (caseless : bool) (its : list item) (s : list ascii) : bool :=
  match its with
  | [] => true
  | (a, q) :: its' =>
      let star :=
        fix star (s : list ascii) : bool :=
          (match_here caseless its' s ||
           match s with
           | c :: s' => atom_match caseless a c && star s'
           | [] => false
           end)%bool in
      match q with
      | One =>
          match s with
          | c :: s' => (atom_match caseless a c && match_here caseless its' s')%bool
          | [] => false
          end
      | Opt =>
          (match_here caseless its' s ||
           match s with
           | c :: s' => atom_match caseless a c && match_here caseless its' s'
           | [] => false
           end)%bool
      | Star => star s
      | Plus =>
          match s with
          | c :: s' => (atom_match caseless a c && star s')%bool
          | [] => false
          end
      end
  end.

(** An unanchored pattern matches when it matches at some offset. *)
Fixpoint search (caseless : bool) (its : list item) (s : list ascii) : bool :=
  (match_here caseless its s ||
   match s with
   | _ :: s' => search caseless its s'
   | [] => false
   end)%bool.

Definition has_option (o : ascii) (options : string) : bool :=
  existsb (Ascii.eqb o) (list_ascii_of_string options).

(** [{ $regex: pattern, $options: options }] applied to a string. *)
Definition test (pattern options : string) (subject : string) : option bool :=
  its ← compile pattern;
  Some (search (has_option "i" options) its (list_ascii_of_string subject)).




End Regex.

(* ------------------------------------------------------------------ *)
(** ** Documents *)

(** Modelled from the spec: the user entity of [models/User], which the
    controller requires but which is not among the sources.  The directory
    answers [{id, email, role}] or nothing; the controller reads [_id],
    [email], [role] and, through [populate], [fullName].  An empty string
    stands for a field the directory does not hold. *)
Module UserDoc.
Record t := mk { _id : string; fullName : string; email : string; role : string }.
End UserDoc.

(** [UserLogSchema], with the two fields of [timestamps: true].  A date or
    number field whose value is [null] is [None]. *)
Record UserLogDoc := mkUserLog {
  _id : string;
  userId : string;
  username : string;
  role : string;
  action : string;
  loginTime : option Z;
  logoutTime : option Z;
  ipAddress : string;
  tokenName : string;
  userAgent : string;
  sessionDuration : option Z;
  createdAt : Z;
  updatedAt : Z
}.

Definition role_enum : list string := ["user"; "admin"]%string.
Definition action_enum : list string :=
  ["login"; "logout"; "register"; "password_reset"]%string.

(** Stored values, in the store's comparison order of types:
    null, numbers, strings, identifiers, dates. *)
Inductive bson :=
| BNull
| BNum (n : Z)
| BStr (s : string)
| BOid (o : string)
| BDate (t : Z).

Definition type_rank (v : bson) : Z :=
  match v with
  | BNull => 0 | BNum _ => 1 | BStr _ => 2 | BOid _ => 3 | BDate _ => 4
  end.

Definition bson_leb (a b : bson) : bool :=
  match a, b with
  | BNull, BNull => true
  | BNum x, BNum y => x <=? y
  | BStr x, BStr y => String.leb x y
  | BOid x, BOid y => String.leb x y
  | BDate x, BDate y => x <=? y
  | _, _ => type_rank a <? type_rank b
  end.

Definition bson_eqb (a b : bson) : bool :=
  match a, b with
  | BNull, BNull => true
  | BNum x, BNum y => x =? y
  | BStr x, BStr y => String.eqb x y
  | BOid x, BOid y => String.eqb x y
  | BDate x, BDate y => x =? y
  | _, _ => false
  end.

Definition date_or_null (d : option Z) : bson := from_option BDate BNull d.
Definition num_or_null (n : option Z) : bson := from_option BNum BNull n.

(** A log record as the store holds it: field names with their values. *)
Definition to_doc (r : UserLogDoc) : list (string * bson) :=
  [ ("_id", BOid (_id r));
    ("userId", BOid (userId r));
    ("username", BStr (username r));
    ("role", BStr (role r));
    ("action", BStr (action r));
    ("loginTime", date_or_null (loginTime r));
    ("logoutTime", date_or_null (logoutTime r));
    ("ipAddress", BStr (ipAddress r));
    ("tokenName", BStr (tokenName r));
    ("userAgent", BStr (userAgent r));
    ("sessionDuration", num_or_null (sessionDuration r));
    ("createdAt", BDate (createdAt r));
    ("updatedAt", BDate (updatedAt r));
    ("__v", BNum 0) ]%string.

Fixpoint assoc (k : string) (d : list (string * bson)) : option bson :=
  match d with
  | [] => None
  | (k', v) :: d' => if String.eqb k k' then Some v else assoc k d'
  end.

Definition field (path : string) (r : UserLogDoc) : option bson :=
  assoc path (to_doc r).

(* ------------------------------------------------------------------ *)
(** ** The store's query language *)

Module Mongo.

(** A JavaScript [Date] placed in a query: [new Date(text)] is either an
    instant or [Invalid Date]. *)
Inductive date := Date (t : Z) | InvalidDate.

Inductive cond :=
| Eq (v : bson)                              (* path: v *)
| Regex (pattern options : string)          (* { $regex, $options } *)
| Range (gte lte : option date)             (* { $gte, $lte } *)
| Exists (b : bool)                          (* { $exists } *)
| In (vs : list bson).                       (* { $in } *)

Inductive clause :=
| Field (path : string) (c : cond)
| Or (alts : list (string * cond)).          (* $or: [ {path: c}, ... ] *)

Definition query : Type := list clause.

Definition gte_date (v : bson) (d : date) : bool :=
  match v, d with
  | BDate t, Date t0 => t0 <=? t
  | _, _ => false
  end.

Definition lte_date (v : bson) (d : date) : bool :=
  match v, d with
  | BDate t, Date t0 => t <=? t0
  | _, _ => false
  end.

(** A condition on the value of a path; [None] is a record without the
    path.  Equality with a missing path is equality with null, and a range
    only holds values of the type of its bounds. *)
Definition eval_cond (c : cond) (v : option bson) : bool :=
  match c with
  | Eq x => bson_eqb (default BNull v) x
  | Regex pattern options =>
      match v with
      | Some (BStr s) => default false (Regex.test pattern options s)
      | _ => false
      end
  | Range gte lte =>
      match v with
      | Some x =>
          (from_option (gte_date x) true gte && from_option (lte_date x) true lte)%bool
      | None => false
      end
  | Exists b => Bool.eqb (bool_decide (is_Some v)) b
  | In vs => existsb (bson_eqb (default BNull v)) vs
  end.

Definition eval_clause (r : UserLogDoc) (cl : clause) : bool :=
  match cl with
  | Field path c => eval_cond c (field path r)
  | Or alts => existsb (λ a, eval_cond (snd a) (field (fst a) r)) alts
  end.

(** A record matches a query document when it satisfies every clause. *)
Definition matches (q : query) (r : UserLogDoc) : bool :=
  forallb (eval_clause r) q.

Definition bound_ok (b : option date) : bool :=
  match b with
  | Some InvalidDate => false
  | _ => true
  end.

(** What the store refuses before it looks at any record. *)
Definition cond_ok (c : cond) : bool :=
  match c with
  | Regex pattern _ => bool_decide (is_Some (Regex.compile pattern))
  | Range gte lte => (bound_ok gte && bound_ok lte)%bool
  | _ => true
  end.

Definition clause_ok (cl : clause) : bool :=
  match cl with
  | Field _ c => cond_ok c
  | Or alts => forallb (λ a, cond_ok (snd a)) alts
  end.

Definition query_ok (q : query) : bool := forallb clause_ok q.

(** Sort by one path; a record without the path sorts as null.  The store
    leaves the order of records with equal keys open; the embedding sorts
    with merge sort. *)
Definition sort_key (path : string) (r : UserLogDoc) : bson :=
  default BNull (field path r).

Definition sort_rel (path : string) (direction : Z) : relation UserLogDoc :=
  λ x y,
    if direction <? 0
    then Is_true (bson_leb (sort_key path y) (sort_key path x))
    else Is_true (bson_leb (sort_key path x) (sort_key path y)).

(** [.limit(n)]: zero is no limit, a negative limit is its absolute
    value. *)
Definition limit_docs (n : Z) (l : list UserLogDoc) : list UserLogDoc :=
  if n =? 0 then l else take (Z.to_nat (Z.abs n)) l.

(** The [$group] stage of the statistics pipeline, one record at a time. *)
Record group_acc := mkAcc {
  acc_totalLogs : Z;
  acc_loginCount : Z;
  acc_logoutCount : Z;
  acc_uniqueUsers : list string
}.

Definition addToSet (x : string) (s : list string) : list string :=
  if bool_decide (x ∈ s) then s else s ++ [x].

Definition group_step (a : group_acc) (r : UserLogDoc) : group_acc :=
  {| acc_totalLogs := acc_totalLogs a + 1;
     acc_loginCount :=
       acc_loginCount a + (if String.eqb (action r) "login" then 1 else 0);
     acc_logoutCount :=
       acc_logoutCount a + (if String.eqb (action r) "logout" then 1 else 0);
     acc_uniqueUsers := addToSet (userId r) (acc_uniqueUsers a) |}.

Definition group_all (l : list UserLogDoc) : list group_acc :=
  match l with
  | [] => []
  | _ => [foldl group_step (mkAcc 0 0 0 []) l]
  end.

End Mongo.

#[global] Instance bson_eq_dec : EqDecision bson.
Proof. solve_decision. Defined.
#[global] Instance sort_rel_dec path direction x y :
  Decision (Mongo.sort_rel path direction x y).
Proof. unfold Mongo.sort_rel. destruct (direction <? 0); apply _. Defined.

(* ------------------------------------------------------------------ *)
(** ** The world of a request and the monad of [await] *)

Inductive Exn :=
| ValidationError (paths : list string)   (* the schema validators refused a document *)
| QueryRejected.                           (* a query document was refused: cast or server error *)

(** Accesses to the two collections, in the order they happen. *)
Inductive Event :=
| UsersRead (ids : list string)
| LogsRead (q : Mongo.query)
| LogsInsert (r : UserLogDoc)
| LogsDelete (q : Mongo.query).

Definition mutating (e : Event) : bool :=
  match e with
  | LogsInsert _ | LogsDelete _ => true
  | _ => false
  end.

Record World := mkWorld {
  users : gmap string UserDoc.t;
  logs : list UserLogDoc;
  clock : nat → Z;
  ticks : nat;
  oids : nat → string;
  minted : nat;
  trace : list Event
}.

Inductive outcome (A : Type) :=
| Return (a : A)
| Throw (e : Exn).
Arguments Return {A} a.
Arguments Throw {A} e.

Definition Async (A : Type) : Type := World → outcome A * World.

#[global] Instance Async_ret : MRet Async := λ A a w, (Return a, w).
#[global] Instance Async_bind : MBind Async := λ A B f m w,
  match m w with
  | (Return a, w') => f a w'
  | (Throw e, w') => (Throw e, w')
  end.

(** The steps that change the world. *)
Definition record_event (e : Event) (w : World) : World :=
  mkWorld (users w) (logs w) (clock w) (ticks w) (oids w) (minted w) (trace w ++ [e]).
Definition tick (w : World) : World :=
  mkWorld (users w) (logs w) (clock w) (S (ticks w)) (oids w) (minted w) (trace w).
Definition mint (w : World) : World :=
  mkWorld (users w) (logs w) (clock w) (ticks w) (oids w) (S (minted w)) (trace w).
Definition set_logs (l : list UserLogDoc) (w : World) : World :=
  mkWorld (users w) l (clock w) (ticks w) (oids w) (minted w) (trace w).

Definition throw {A} (e : Exn) : Async A := λ w, (Throw e, w).

Definition emit (e : Event) : Async () := λ w, (Return (), record_event e w).

(** [new Date()] and [Date.now()]: one read of the wall clock. *)
Definition now : Async Z := λ w, (Return (clock w (ticks w)), tick w).

Definition new_ObjectId : Async string := λ w, (Return (oids w (minted w)), mint w).

Definition get_users : Async (gmap string UserDoc.t) := λ w, (Return (users w), w).
Definition get_logs : Async (list UserLogDoc) := λ w, (Return (logs w), w).
Definition put_logs (l : list UserLogDoc) : Async () := λ w, (Return (), set_logs l w).

(* ------------------------------------------------------------------ *)
(** ** Responses *)

Record UserRef := mkUserRef {
  ref_id : string;
  ref_fullName : string;
  ref_email : string
}.

(** A log record after [populate('userId', 'fullName email')]: the record,
    and what stands in place of its [userId]; [None] is [null], the
    referenced user is gone. *)
Record PopulatedLog := mkPopulated {
  doc : UserLogDoc;
  populated_userId : option UserRef
}.

Record Pagination := mkPagination {
  currentPage : Z;
  totalPages : option Z;
  totalItems : Z;
  itemsPerPage : Z
}.

Record Stats := mkStats {
  totalLogs : Z;
  loginCount : Z;
  logoutCount : Z;
  uniqueUsers : Z
}.

(** The JSON bodies the controller sends; [success] is [true] for
    [Created], [Page] and [StatsOf], [false] for [Failure]. *)
Inductive Payload :=
| Message (success : bool) (message : string)
| Created (message : string) (data : UserLogDoc)
| Failure (message : string) (error : Exn)
| Page (data : list PopulatedLog) (pagination : Pagination)
| StatsOf (data : Stats).

Record Response := mkResponse { status : Z; json : Payload }.

(** [try { ... } catch (error) { res.status(500).json(...) }] *)
Definition try_catch (body : Async Response) (handler : Exn → Response)
  : World → Response * World :=
  λ w,
    match body w with
    | (Return r, w') => (r, w')
    | (Throw e, w') => (handler e, w')
    end.

Definition internal_error (error : Exn) : Response :=
  mkResponse 500 (Failure "Internal server error" error).

(* ------------------------------------------------------------------ *)
(** ** The two models *)

Module User.

Definition findById (id : string) : Async (option UserDoc.t) :=
  _ ← emit (UsersRead [id]);
  us ← get_users;
  mret (us !! id).

Definition select_fullName_email (u : UserDoc.t) : UserRef :=
  mkUserRef (UserDoc._id u) (UserDoc.fullName u) (UserDoc.email u).

(** [.populate('userId', 'fullName email')] *)
Definition populate (docs : list UserLogDoc) : Async (list PopulatedLog) :=
  _ ← emit (UsersRead (userId <$> docs));
  us ← get_users;
  mret ((λ d, mkPopulated d (select_fullName_email <$> us !! userId d)) <$> docs).

End User.

(** The object the controller fills before it builds the document. *)
Module LogData.
Record t := mk {
  userId : string;
  username : string;
  role : string;
  action : string;
  ipAddress : string;
  tokenName : string;
  userAgent : string;
  loginTime : option Z;
  logoutTime : option Z;
  sessionDuration : option Z
}.

Definition set_loginTime (d : t) (v : Z) : t :=
  mk (userId d) (username d) (role d) (action d) (ipAddress d) (tokenName d)
     (userAgent d) (Some v) (logoutTime d) (sessionDuration d).
Definition set_logoutTime (d : t) (v : Z) : t :=
  mk (userId d) (username d) (role d) (action d) (ipAddress d) (tokenName d)
     (userAgent d) (loginTime d) (Some v) (sessionDuration d).
Definition set_sessionDuration (d : t) (v : Z) : t :=
  mk (userId d) (username d) (role d) (action d) (ipAddress d) (tokenName d)
     (userAgent d) (loginTime d) (logoutTime d) (Some v).
End LogData.

Module UserLog.

Definition in_enum (values : list string) (s : string) : bool :=
  existsb (String.eqb s) values.

(** The validators of [UserLogSchema]: [required] on a string refuses the
    empty string, [enum] refuses a value outside the list. *)
Definition validate (d : LogData.t) : list string :=
  (if String.eqb (LogData.username d) "" then ["username"%string] else []) ++
  (if in_enum role_enum (LogData.role d) then [] else ["role"%string]) ++
  (if in_enum action_enum (LogData.action d) then [] else ["action"%string]) ++
  (if String.eqb (LogData.ipAddress d) "" then ["ipAddress"%string] else []).

(** [new UserLog(logData)] followed by [save()]: a fresh [_id], the
    validators, the timestamps, then the insertion. *)
Definition save (d : LogData.t) : Async UserLogDoc :=
  id ← new_ObjectId;
  match validate d with
  | [] =>
      t ← now;
      let r := mkUserLog id (LogData.userId d) (LogData.username d) (LogData.role d)
                 (LogData.action d) (LogData.loginTime d) (LogData.logoutTime d)
                 (LogData.ipAddress d) (LogData.tokenName d) (LogData.userAgent d)
                 (LogData.sessionDuration d) t t in
      _ ← emit (LogsInsert r);
      l ← get_logs;
      _ ← put_logs (l ++ [r]);
      mret r
  | paths => throw (ValidationError paths)
  end.

Definition check (q : Mongo.query) : Async () :=
  if Mongo.query_ok q then mret () else throw QueryRejected.

(** [findOne(q).sort({ path: direction })] *)
Definition findOne (q : Mongo.query) (path : string) (direction : Z)
  : Async (option UserLogDoc) :=
  _ ← emit (LogsRead q);
  _ ← check q;
  l ← get_logs;
  mret (head (merge_sort (Mongo.sort_rel path direction) (filter (λ r, Mongo.matches q r) l))).

(** [find(q).sort({ path: direction }).skip(skip).limit(limit)]; the store
    refuses a negative skip. *)
Definition find (q : Mongo.query) (path : string) (direction : Z) (skip limit : Z)
  : Async (list UserLogDoc) :=
  _ ← emit (LogsRead q);
  _ ← check q;
  if skip <? 0 then throw QueryRejected
  else
    l ← get_logs;
    mret (Mongo.limit_docs limit
            (drop (Z.to_nat skip)
               (merge_sort (Mongo.sort_rel path direction)
                  (filter (λ r, Mongo.matches q r) l)))).

Definition countDocuments (q : Mongo.query) : Async Z :=
  _ ← emit (LogsRead q);
  _ ← check q;
  l ← get_logs;
  mret (Z.of_nat (List.length (filter (λ r, Mongo.matches q r) l))).

Definition by_id (id : string) : Mongo.query :=
  [Mongo.Field "_id" (Mongo.Eq (BOid id))].

Definition findById (id : string) : Async (option UserLogDoc) :=
  _ ← emit (LogsRead (by_id id));
  l ← get_logs;
  mret (head (filter (λ r, Mongo.matches (by_id id) r) l)).

(** Removes the first record the query matches. *)
Fixpoint remove_first (q : Mongo.query) (l : list UserLogDoc) : list UserLogDoc :=
  match l with
  | [] => []
  | r :: l' => if Mongo.matches q r then l' else r :: remove_first q l'
  end.

Definition findByIdAndDelete (id : string) : Async (option UserLogDoc) :=
  _ ← emit (LogsDelete (by_id id));
  l ← get_logs;
  _ ← put_logs (remove_first (by_id id) l);
  mret (head (filter (λ r, Mongo.matches (by_id id) r) l)).

(** [deleteMany(q)] answers [{ deletedCount }]. *)
Definition deleteMany (q : Mongo.query) : Async Z :=
  _ ← emit (LogsDelete q);
  _ ← check q;
  l ← get_logs;
  _ ← put_logs (filter (λ r, negb (Mongo.matches q r)) l);
  mret (Z.of_nat (List.length (filter (λ r, Mongo.matches q r) l))).

(** [aggregate([{ $match }, { $group }, { $project }])] of the
    statistics: [$size] of the collected set is its length. *)
Definition aggregate (q : Mongo.query) : Async (list Stats) :=
  _ ← emit (LogsRead q);
  _ ← check q;
  l ← get_logs;
  mret ((λ a, mkStats (Mongo.acc_totalLogs a) (Mongo.acc_loginCount a)
                (Mongo.acc_logoutCount a)
                (Z.of_nat (List.length (Mongo.acc_uniqueUsers a))))
        <$> Mongo.group_all (filter (λ r, Mongo.matches q r) l)).

End UserLog.

(* ------------------------------------------------------------------ *)
(** ** Requests *)

(** [req.body] of [POST /create], and [req.get('User-Agent')]. *)
Module CreateReq.
Record t := mk {
  userId : option string;
  action : option string;
  ipAddress : option string;
  tokenName : option string;
  userAgent : option string;
  header_User_Agent : option string
}.
End CreateReq.

(** [req.query] of [GET /logs].  [startDate] and [endDate] hold the date
    [new Date(text)] builds from a non-empty text. *)
Module ListReq.
Record t := mk {
  page : option Z;
  limit : option Z;
  role : option string;
  action : option string;
  search : option string;
  startDate : option Mongo.date;
  endDate : option Mongo.date;
  sortBy : option string;
  sortOrder : option string
}.
End ListReq.

(** [req.body.logIds] of [DELETE /logs]: an array of identifiers, or
    anything else (missing, null, a string, a number, an object). *)
Inductive LogIds :=
| NotAnArray
| Array (ids : list string).

(* ------------------------------------------------------------------ *)
(** ** The controller *)

Definition respond (code : Z) (body : Payload) : Async Response :=
  mret (mkResponse code body).

(** The query of the session linkage. *)
Definition last_login_query (uid : string) : Mongo.query :=
  [ Mongo.Field "userId" (Mongo.Eq (BOid uid));
    Mongo.Field "action" (Mongo.Eq (BStr "login"));
    Mongo.Field "loginTime" (Mongo.Exists true) ].

(** The branch on [action] that fills the times of [logData]:
    [if (action === 'login') ... else if (action === 'logout') ...]. *)
Definition stamp_times (action : string) (logData : LogData.t) : Async LogData.t :=
  if String.eqb action "login" then
    t ← now;
    mret (LogData.set_loginTime logData t)
  else if String.eqb action "logout" then
    t ← now;
    let logData := LogData.set_logoutTime logData t in
    lastLoginLog ←
      UserLog.findOne (last_login_query (LogData.userId logData)) "loginTime" (-1);
    match lastLoginLog ≫= loginTime with
    | Some login_at =>
        t' ← now;
        mret (LogData.set_sessionDuration logData (t' - login_at))
    | None => mret logData
    end
  else mret logData.

(** [const logData = { userId: user._id, username: user.email, ... }] *)
Definition initial_logData (req : CreateReq.t) (user : UserDoc.t)
    (action ipAddress : string) : LogData.t :=
  LogData.mk (UserDoc._id user) (UserDoc.email user) (UserDoc.role user)
    action ipAddress
    (JS.or_else (CreateReq.tokenName req) "N/A")
    (JS.or_else (JS.or_opt (CreateReq.userAgent req)
                   (CreateReq.header_User_Agent req)) "Unknown")
    None None None.

Definition createUserLog (req : CreateReq.t) : World → Response * World :=
  try_catch
    (if (negb (JS.truthy (CreateReq.userId req)) ||
         negb (JS.truthy (CreateReq.action req)) ||
         negb (JS.truthy (CreateReq.ipAddress req)))%bool
     then respond 400 (Message false "Missing required fields: userId, action, ipAddress")
     else
       let userId := default ""%string (CreateReq.userId req) in
       let action := default ""%string (CreateReq.action req) in
       let ipAddress := default ""%string (CreateReq.ipAddress req) in
       user ← User.findById userId;
       match user with
       | None => respond 404 (Message false "User not found")
       | Some user =>
           let logData := initial_logData req user action ipAddress in
           logData ← stamp_times action logData;
           userLog ← UserLog.save logData;
           respond 201 (Created "User log created successfully" userLog)
       end)
    internal_error.

(** The filter [getUserLogs] builds from the query string, one [if] of
    the source at a time. *)

(** [if (v && v !== 'all') filter[path] = v] *)
Definition exact_clause (path : string) (v : option string) : Mongo.query :=
  match v with
  | Some x =>
      if (JS.truthy (Some x) && negb (String.eqb x "all"))%bool
      then [Mongo.Field path (Mongo.Eq (BStr x))] else []
  | None => []
  end.

(** [if (search) filter.$or = [...]] *)
Definition search_clause (search : option string) : Mongo.query :=
  match search with
  | Some s =>
      if JS.truthy (Some s)
      then [Mongo.Or [ ("username"%string, Mongo.Regex s "i");
                       ("ipAddress"%string, Mongo.Regex s "i") ]]
      else []
  | None => []
  end.

(** [if (startDate || endDate) { filter.createdAt = {}; ... }] *)
Definition date_clause (startDate endDate : option Mongo.date) : Mongo.query :=
  match startDate, endDate with
  | None, None => []
  | gte, lte => [Mongo.Field "createdAt" (Mongo.Range gte lte)]
  end.

Definition build_filter (req : ListReq.t) : Mongo.query :=
  exact_clause "role" (ListReq.role req) ++
  exact_clause "action" (ListReq.action req) ++
  search_clause (ListReq.search req) ++
  date_clause (ListReq.startDate req) (ListReq.endDate req).

Definition getUserLogs (req : ListReq.t) : World → Response * World :=
  try_catch
    (let page := default 1 (ListReq.page req) in
     let limit := default 50 (ListReq.limit req) in
     let sortBy := default "createdAt"%string (ListReq.sortBy req) in
     let sortOrder := default "desc"%string (ListReq.sortOrder req) in
     let filter := build_filter req in
     let direction := if String.eqb sortOrder "desc" then -1 else 1 in
     let skip := (page - 1) * limit in
     found ← UserLog.find filter sortBy direction skip limit;
     logs ← User.populate found;
     total ← UserLog.countDocuments filter;
     respond 200
       (Page logs
          (mkPagination page (JS.ceil_div total limit) total limit)))
    internal_error.

Definition deleteUserLog (logId : string) : World → Response * World :=
  try_catch
    (log ← UserLog.findById logId;
     match log with
     | None => respond 404 (Message false "Log entry not found")
     | Some _ =>
         _ ← UserLog.findByIdAndDelete logId;
         respond 200 (Message true "Log entry deleted successfully")
     end)
    internal_error.

Definition deleteMultipleLogs (logIds : LogIds) : World → Response * World :=
  try_catch
    (match logIds with
     | NotAnArray | Array [] =>
         respond 400 (Message false "Please provide an array of log IDs to delete")
     | Array ids =>
         deletedCount ← UserLog.deleteMany [Mongo.Field "_id" (Mongo.In (BOid <$> ids))];
         respond 200
           (Message true (String.append (pretty deletedCount) " log entries deleted successfully"))
     end)
    internal_error.

Definition day_ms : Z := 24 * 60 * 60 * 1000.

(** The [switch (period)] of [getUserLogStats]: the length of the window. *)
Definition period_ms (period : string) : Z :=
  if String.eqb period "24h" then day_ms
  else if String.eqb period "7d" then 7 * day_ms
  else if String.eqb period "30d" then 30 * day_ms
  else 7 * day_ms.

Definition getUserLogStats (period : option string) : World → Response * World :=
  try_catch
    (let period := default "7d"%string period in
     now ← now;
     let dateFilter :=
       [Mongo.Field "createdAt" (Mongo.Range (Some (Mongo.Date (now - period_ms period))) None)] in
     stats ← UserLog.aggregate dateFilter;
     respond 200 (StatsOf (default (mkStats 0 0 0 0) (head stats))))
    internal_error.

(* ------------------------------------------------------------------ *)
(** ** The specification's words, as definitions *)



(** Page [p] (default 1) and limit [L] (default 50). *)
Definition page_of (req : ListReq.t) : Z := default 1 (ListReq.page req).
Definition limit_of (req : ListReq.t) : Z := default 50 (ListReq.limit req).

(** The records a query matches, and the same in sort order. *)
Definition matching (req : ListReq.t) (w : World) : list UserLogDoc :=
  filter (λ r, Mongo.matches (build_filter req) r) (logs w).

Definition direction_of (req : ListReq.t) : Z :=
  if String.eqb (default "desc"%string (ListReq.sortOrder req)) "desc" then -1 else 1.

Definition in_order (req : ListReq.t) (w : World) : list UserLogDoc :=
  merge_sort
    (Mongo.sort_rel (default "createdAt"%string (ListReq.sortBy req)) (direction_of req))
    (matching req w).

(** The records of the requested page, before [populate]. *)
Definition page_docs (req : ListReq.t) (w : World) : list UserLogDoc :=
  Mongo.limit_docs (limit_of req)
    (drop (Z.to_nat ((page_of req - 1) * limit_of req)) (in_order req w)).

(** A record with its [userId] populated from the directory of [w]. *)
Definition populated (w : World) (d : UserLogDoc) : PopulatedLog :=
  mkPopulated d (User.select_fullName_email <$> users w !! userId d).


(** The window of the statistics: 24 hours, 7 days or 30 days, and 7 days
    for anything else. *)
Definition window (period : option string) : Z :=
  match period with
  | Some "24h"%string => 24 * 3600000
  | Some "30d"%string => 30 * 24 * 3600000
  | _ => 7 * 24 * 3600000
  end.

Definition recent (since : Z) (l : list UserLogDoc) : list UserLogDoc :=
  filter (λ r, since ≤ createdAt r) l.

Definition count_action (a : string) (l : list UserLogDoc) : Z :=
  Z.of_nat (List.length (filter (λ r, action r = a) l)).

Definition distinct_users (l : list UserLogDoc) : Z :=
  Z.of_nat (size (list_to_set (userId <$> l) : gset string)).

Definition stats_of (l : list UserLogDoc) : Stats :=
  mkStats (Z.of_nat (List.length l)) (count_action "login" l)
    (count_action "logout" l) (distinct_users l).

(** A login record of user [uid] that carries its time. *)
Definition login_of (uid : string) (t : Z) (r : UserLogDoc) : Prop :=
  userId r = uid ∧ action r = "login"%string ∧ loginTime r = Some t.

(** The login the session linkage finds: the first record of the
    descending sort, if there is one. *)
Definition last_login (uid : string) (l : list UserLogDoc) : option UserLogDoc :=
  head (merge_sort (Mongo.sort_rel "loginTime" (-1))
          (filter (λ r, Mongo.matches (last_login_query uid) r) l)).

(** The record [save] stores for a filled [logData]. *)
Definition stored (id : string) (d : LogData.t) (t : Z) : UserLogDoc :=
  mkUserLog id (LogData.userId d) (LogData.username d) (LogData.role d)
    (LogData.action d) (LogData.loginTime d) (LogData.logoutTime d)
    (LogData.ipAddress d) (LogData.tokenName d) (LogData.userAgent d)
    (LogData.sessionDuration d) t t.

(** The body of a well-formed event for a user the directory knows, whose
    snapshot the schema accepts. *)
Definition event_of (req : CreateReq.t) (uid act ip : string) : Prop :=
  CreateReq.userId req = Some uid ∧ CreateReq.action req = Some act ∧
  CreateReq.ipAddress req = Some ip ∧
  uid ≠ ""%string ∧ act ≠ ""%string ∧ ip ≠ ""%string.

Definition snapshot_ok (u : UserDoc.t) : Prop :=
  UserDoc.email u ≠ ""%string ∧ UserDoc.role u ∈ role_enum.

(** The message of a bulk deletion. *)
Definition deleted_message (n : Z) : string :=
  String.append (pretty n) " log entries deleted successfully".

(** The invariant of the times of a record, as the specification words it. *)
Definition times_invariant (r : UserLogDoc) : Prop :=
  (is_Some (loginTime r) ↔ action r = "login"%string) ∧
  (is_Some (logoutTime r) ↔ action r = "logout"%string) ∧
  (∀ d, sessionDuration r = Some d → 0 ≤ d ∧ action r = "logout"%string).

(* ------------------------------------------------------------------ *)
(** ** Sample data *)

Module Sample.

Definition bob : UserDoc.t := UserDoc.mk "u1" "Bob Stone" "bob@x.io" "admin".

Definition directory : gmap string UserDoc.t := {[ "u1"%string := bob ]}.

(** A clock that advances by 10 ms from one read to the next. *)
Definition steady_clock (n : nat) : Z := 1000 + 10 * Z.of_nat n.

(** A clock that is set back after its second read. *)
Definition adjusted_clock (n : nat) : Z := if (n <? 2)%nat then 5000 else 1000.

Definition oid (n : nat) : string := pretty n.

Definition world (l : list UserLogDoc) (clk : nat → Z) : World :=
  mkWorld directory l clk 0 oid 0 [].

Definition event (uid action : string) : CreateReq.t :=
  CreateReq.mk (Some uid) (Some action) (Some "10.0.0.1"%string) None None
    (Some "curl"%string).

Definition log (id uid name action : string) (login_at : option Z) (t : Z) : UserLogDoc :=
  mkUserLog id uid name "admin" action login_at None "10.0.0.1" "N/A" "curl" None t t.



(** A record whose snapshot predates a change of the user's address. *)
Definition stale_login : UserLogDoc := log "a2" "u1" "bob@old.io" "login" (Some 50) 50.

Definition old_login : UserLogDoc := log "a0" "u1" "bob@x.io" "login" (Some 400) 400.
Definition older_login : UserLogDoc := log "a1" "u1" "bob@x.io" "login" (Some 100) 100.

Definition no_params : ListReq.t :=
  ListReq.mk None None None None None None None None None.



End Sample.

(* ------------------------------------------------------------------ *)
(** ** Reading a response, and the invariants of the collection *)



(** The statistics of a statistics response. *)
Definition stats_in (resp : Response) : option Stats :=
  match json resp with
  | StatsOf s => Some s
  | _ => None
  end.

(** What the schema and the controller together promise of a stored
    record: the required strings are present, the enumerations hold, the
    defaulted strings are not empty, and the three times agree with the
    action. *)
Definition well_formed (r : UserLogDoc) : Prop :=
  username r ≠ ""%string ∧ ipAddress r ≠ ""%string ∧
  role r ∈ role_enum ∧ action r ∈ action_enum ∧
  tokenName r ≠ ""%string ∧ userAgent r ≠ ""%string ∧
  (is_Some (loginTime r) ↔ action r = "login"%string) ∧
  (is_Some (logoutTime r) ↔ action r = "logout"%string) ∧
  (is_Some (sessionDuration r) → action r = "logout"%string) ∧
  updatedAt r = createdAt r.

(** The identifiers of the collection are distinct and were all drawn from
    the generator, which never repeats itself. *)
Definition ids_minted (w : World) : Prop :=
  NoDup (_id <$> logs w) ∧
  (∀ x, x ∈ logs w → ∃ k, (k < minted w)%nat ∧ _id x = oids w k) ∧
  (∀ i j, oids w i = oids w j → i = j).

(** A request for everything: no filter, first page, default limit. *)
Definition list_all : ListReq.t :=
  ListReq.mk None None None None None None None None None.


(* ------------------------------------------------------------------ *)
(** ** The API client of the log routes

    Each function of the client sends one request and reads the answer.
    What [fetch] and [response.json()] give is a parameter: a [transport]
    takes the request and the state of the server to what the promise
    settles to and to the state afterwards. *)

(** The [user] argument of the client, which may carry [id], [_id] or
    both. *)
Module ClientUser.
Record t := mk {
  id : option string;
  _id : option string
}.
End ClientUser.

(** The [filters] argument of the client's [getUserLogs].  The two dates
    follow the convention of [ListReq]: the date the text denotes, and
    nothing for a missing or empty text. *)
Module Filters.
Record t := mk {
  page : option Z;
  limit : option Z;
  role : option string;
  action : option string;
  search : option string;
  startDate : option Mongo.date;
  endDate : option Mongo.date;
  sortBy : option string;
  sortOrder : option string
}.
End Filters.

Module Client.

(** The promise is rejected, or a response with a status and a JSON body
    arrives. *)
Inductive fetched := Rejected | Answered (code : Z) (body : Payload).

Definition transport (A : Type) : Type := A → World → fetched * World.

(** A request that reaches its handler: the promise settles to the
    response of the handler. *)
Definition served {A} (handler : A → World → Response * World) : transport A :=
  λ req w,
    let '(resp, w') := handler req w in
    (Answered (status resp) (json resp), w').

(** [response.ok] *)
Definition ok (code : Z) : bool := ((200 <=? code) && (code <=? 299))%bool.

(** [result.data]: the member [data] of a body, [undefined] for a body
    without it. *)
Inductive data :=
  | Undefined
  | OneLog (r : UserLogDoc)
  | Logs (l : list PopulatedLog)
  | Statistics (s : Stats).

Definition data_of (body : Payload) : data :=
  match body with
  | Created _ r => OneLog r
  | Page l _ => Logs l
  | StatsOf s => Statistics s
  | Message _ _ | Failure _ _ => Undefined
  end.

(** The body of [POST /create]; [sent_User_Agent] is the header the
    browser adds.  [JSON.stringify] leaves out a member that is
    [undefined]. *)
Definition create_body (navigator_userAgent : string) (sent_User_Agent : option string)
    (user : ClientUser.t) (action ipAddress tokenName userAgent : option string)
  : CreateReq.t :=
  CreateReq.mk
    (JS.or_opt (ClientUser.id user) (ClientUser._id user))
    action
    (Some (JS.or_else ipAddress "Unknown"))
    (Some (JS.or_else tokenName "N/A"))
    (Some (JS.or_else userAgent navigator_userAgent))
    sent_User_Agent.

(** The [catch] of each function logs the error and returns nothing. *)
Definition createUserLog (fetch : transport CreateReq.t)
    (navigator_userAgent : string) (sent_User_Agent : option string)
    (user : ClientUser.t) (action ipAddress tokenName userAgent : option string)
  : World → data * World :=
  λ w,
    match fetch (create_body navigator_userAgent sent_User_Agent user action
                   ipAddress tokenName userAgent) w with
    | (Answered code body, w') =>
        if ok code then (data_of body, w') else (Undefined, w')
    | (Rejected, w') => (Undefined, w')
    end.

Definition logUserLogin (fetch : transport CreateReq.t)
    (navigator_userAgent : string) (sent_User_Agent : option string)
    (user : ClientUser.t) (ipAddress tokenName : option string)
  : World → data * World :=
  createUserLog fetch navigator_userAgent sent_User_Agent user (Some "login"%string)
    ipAddress tokenName None.

Definition logUserLogout (fetch : transport CreateReq.t)
    (navigator_userAgent : string) (sent_User_Agent : option string)
    (user : ClientUser.t) (ipAddress tokenName : option string)
  : World → data * World :=
  createUserLog fetch navigator_userAgent sent_User_Agent user (Some "logout"%string)
    ipAddress tokenName None.

(** [if (filters.page) queryParams.append('page', filters.page)] for a
    number: zero is not sent. *)
Definition number_param (v : option Z) : option Z :=
  match v with
  | Some n => if n =? 0 then None else Some n
  | None => None
  end.

(** [if (filters.search) queryParams.append(...)] for a text. *)
Definition text_param (v : option string) : option string :=
  if JS.truthy v then v else None.

(** [if (filters.role && filters.role !== 'all') queryParams.append(...)] *)
Definition choice_param (v : option string) : option string :=
  match v with
  | Some x => if (JS.truthy (Some x) && negb (String.eqb x "all"))%bool then Some x else None
  | None => None
  end.

(** The query string of [GET /logs], as [req.query] reads it. *)
Definition query_params (filters : Filters.t) : ListReq.t :=
  ListReq.mk
    (number_param (Filters.page filters))
    (number_param (Filters.limit filters))
    (choice_param (Filters.role filters))
    (choice_param (Filters.action filters))
    (text_param (Filters.search filters))
    (Filters.startDate filters)
    (Filters.endDate filters)
    (text_param (Filters.sortBy filters))
    (text_param (Filters.sortOrder filters)).

(** [return result.data || []] *)
Definition getUserLogs (fetch : transport ListReq.t) (filters : Filters.t)
  : World → data * World :=
  λ w,
    match fetch (query_params filters) w with
    | (Answered code body, w') =>
        if ok code
        then (match data_of body with Undefined => Logs [] | d => d end, w')
        else (Undefined, w')
    | (Rejected, w') => (Undefined, w')
    end.

(** [true] after a response that is [ok], nothing otherwise. *)
Definition deleteUserLog (fetch : transport string) (logId : string)
  : World → option bool * World :=
  λ w,
    match fetch logId w with
    | (Answered code _, w') => if ok code then (Some true, w') else (None, w')
    | (Rejected, w') => (None, w')
    end.


End Client.

(* ------------------------------------------------------------------ *)
(** ** The routes of the application and their guards *)

Module Router.

(** What the guards read: [isAuthenticated] and [hasRole] of [useAuth()],
    and [localStorage.getItem("userRole")]. *)
Record auth := mkAuth {
  isAuthenticated : bool;
  hasRole : string → bool;
  userRole : option string
}.

Inductive page :=
  | Landing | Login | Signup | ForgotPassword | ResetPassword
  | Dashboard | Users | ManageUsers | ManageTasks | Settings | UserLogPage
  | UserDashboard | UserPage | NotificationsPage | CalendarPage | ProfilePage
  | TaskFilter.

(** What a guard returns: [<Navigate to=... replace />] or its children. *)
Inductive element := Navigate (to : string) | Children (p : page).

Definition redirectPath (a : auth) : string :=
  if bool_decide (userRole a = Some "admin"%string)
  then "/admin/dashboard"%string else "/user/dashboard"%string.

Definition ProtectedRoute (a : auth) (requiredRole : option string) (children : page)
  : element :=
  if negb (isAuthenticated a) then Navigate "/login"
  else if (JS.truthy requiredRole && negb (hasRole a (default ""%string requiredRole)))%bool
       then Navigate (redirectPath a)
       else Children children.

Definition AuthRedirect (a : auth) (children : page) : element :=
  if isAuthenticated a then Navigate (redirectPath a) else Children children.

(** The wrapper of a route's element. *)
Inductive guard := Redirects | Protects (requiredRole : option string).

(** The leaf routes of the router, with their full paths.  The catch-all
    route and the two layout paths are not among them. *)
Definition routes : list (string * (guard * page)) :=
  [ ("/"%string, (Redirects, Landing));
    ("/login"%string, (Redirects, Login));
    ("/signup"%string, (Redirects, Signup));
    ("/forgot-password"%string, (Redirects, ForgotPassword));
    ("/reset-password"%string, (Redirects, ResetPassword));
    ("/admin/dashboard"%string, (Protects (Some "admin"%string), Dashboard));
    ("/admin/users"%string, (Protects (Some "admin"%string), Users));
    ("/admin/manage-users"%string, (Protects (Some "admin"%string), ManageUsers));
    ("/admin/manage-tasks"%string, (Protects (Some "admin"%string), ManageTasks));
    ("/admin/settings"%string, (Protects (Some "admin"%string), Settings));
    ("/admin/user-logs"%string, (Protects (Some "admin"%string), UserLogPage));
    ("/admin/task-filter"%string, (Protects (Some "admin"%string), TaskFilter));
    ("/user/dashboard"%string, (Protects None, UserDashboard));
    ("/user/userpage"%string, (Protects None, UserPage));
    ("/user/notifications"%string, (Protects None, NotificationsPage));
    ("/user/calendar"%string, (Protects None, CalendarPage));
    ("/user/profile"%string, (Protects None, ProfilePage));
    ("/user/task-filter"%string, (Protects None, TaskFilter)) ].

Fixpoint find_route (path : string) (rs : list (string * (guard * page)))
  : option (guard * page) :=
  match rs with
  | (p, e) :: rs' => if String.eqb p path then Some e else find_route path rs'
  | [] => None
  end.

Definition route_of (path : string) : option (guard * page) := find_route path routes.

Definition wrap (a : auth) (g : guard) (p : page) : element :=
  match g with
  | Redirects => AuthRedirect a p
  | Protects requiredRole => ProtectedRoute a requiredRole p
  end.

(** Where a visit ends: a page is shown at a path, the path is none of
    [routes], or the redirections have not come to an end within the
    number of steps allowed. *)
Inductive outcome :=
  | Shows (path : string) (p : page)
  | Elsewhere (path : string)
  | Redirecting (path : string).

(** Renders [path] and follows at most [fuel] redirections. *)
Fixpoint follow (fuel : nat) (a : auth) (path : string) : outcome :=
  match route_of path with
  | None => Elsewhere path
  | Some (g, p) =>
      match wrap a g p with
      | Children p => Shows path p
      | Navigate to =>
          match fuel with
          | O => Redirecting to
          | S fuel => follow fuel a to
          end
      end
  end.

End Router.

(* ------------------------------------------------------------------ *)
(** ** The task filter hook ([useFilters])

    Strings are bytes: [toLowerCase] folds the ASCII letters and [trim]
    removes the ASCII white space, which is exact on ASCII text. *)

Module Text.

Definition toLowerCase (s : string) : string :=
  string_of_list_ascii (map Regex.fold_case (list_ascii_of_string s)).

Definition is_space (c : ascii) : bool :=
  bool_decide (N_of_ascii c ∈ [9; 10; 11; 12; 13; 32]%N).

Fixpoint trim_start (s : list ascii) : list ascii :=
  match s with
  | c :: s' => if is_space c then trim_start s' else s
  | [] => []
  end.

Definition trim (s : string) : string :=
  string_of_list_ascii
    (rev (trim_start (rev (trim_start (list_ascii_of_string s))))).

(** [s.includes(needle)] *)
Fixpoint includes (s needle : string) : bool :=
  (String.prefix needle s ||
   match s with
   | String _ s' => includes s' needle
   | EmptyString => false
   end)%bool.

End Text.

Module Task.
Record t := mk {
  status : string;
  title : string;
  description : string
}.
End Task.

Module useFilters.

Record state := mkState {
  statusFilter : string;
  searchQuery : string
}.

Definition initial : state := mkState "all" "".

Definition setStatusFilter (v : string) (st : state) : state :=
  mkState v (searchQuery st).

Definition setSearchQuery (v : string) (st : state) : state :=
  mkState (statusFilter st) v.

Definition clearFilters (st : state) : state := mkState "all" "".

Definition filteredTasks (tasks : list Task.t) (st : state) : list Task.t :=
  let filtered := tasks in
  let filtered :=
    if negb (String.eqb (statusFilter st) "all")
    then filter (λ task, Task.status task = statusFilter st) filtered
    else filtered in
  let filtered :=
    if JS.truthy (Some (Text.trim (searchQuery st)))
    then
      let query := Text.trim (Text.toLowerCase (searchQuery st)) in
      filter (λ task,
                Is_true (Text.includes (Text.toLowerCase (Task.title task)) query ||
                         Text.includes (Text.toLowerCase (Task.description task)) query))
        filtered
    else filtered in
  filtered.

End useFilters.

(* ------------------------------------------------------------------ *)
(** * Properties *)

(** ** Regular expressions: a pattern without metacharacters *)

Section regex_literal.








End regex_literal.

Section bson_order.

Lemma ascii_compare_lt_trans a b c :
  Ascii.compare a b = Lt → Ascii.compare b c = Lt → Ascii.compare a c = Lt.
Proof.
  unfold Ascii.compare. rewrite !N.compare_lt_iff. apply N.lt_trans.
Qed.

Lemma string_compare_lt_trans s1 : ∀ s2 s3,
  String.compare s1 s2 = Lt → String.compare s2 s3 = Lt → String.compare s1 s3 = Lt.
Proof.
  induction s1 as [|a s1 IH]; intros [|b s2] [|c s3]; simpl; try congruence.
  destruct (Ascii.compare a b) eqn:Eab; try discriminate;
    destruct (Ascii.compare b c) eqn:Ebc; try discriminate; intros H1 H2.
  - apply Ascii.compare_eq_iff in Eab, Ebc. subst.
    assert (Ascii.compare c c = Eq) as -> by (unfold Ascii.compare; apply N.compare_refl).
    eauto.
  - apply Ascii.compare_eq_iff in Eab. subst. rewrite Ebc. reflexivity.
  - apply Ascii.compare_eq_iff in Ebc. subst. rewrite Eab. reflexivity.
  - rewrite (ascii_compare_lt_trans _ _ _ Eab Ebc). reflexivity.
Qed.

Lemma string_compare_refl s : String.compare s s = Eq.
Proof.
  pose proof (String.compare_antisym s s) as H.
  destruct (String.compare s s); [reflexivity|discriminate|discriminate].
Qed.

Lemma string_leb_trans s1 s2 s3 :
  String.leb s1 s2 = true → String.leb s2 s3 = true → String.leb s1 s3 = true.
Proof.
  unfold String.leb.
  destruct (String.compare s1 s2) eqn:E12; try discriminate;
    destruct (String.compare s2 s3) eqn:E23; try discriminate; intros _ _.
  - apply String.compare_eq_iff in E12, E23. subst.
    rewrite string_compare_refl. reflexivity.
  - apply String.compare_eq_iff in E12. subst. rewrite E23. reflexivity.
  - apply String.compare_eq_iff in E23. subst. rewrite E12. reflexivity.
  - rewrite (string_compare_lt_trans _ _ _ E12 E23). reflexivity.
Qed.

Lemma bson_leb_trans a b c :
  bson_leb a b = true → bson_leb b c = true → bson_leb a c = true.
Proof.
  destruct a, b, c; simpl; try discriminate; try reflexivity;
    try (rewrite !Z.leb_le; lia); try apply string_leb_trans.
Qed.

Lemma bson_leb_total a b : bson_leb a b = true ∨ bson_leb b a = true.
Proof.
  destruct a, b; simpl; auto using String.leb_total;
    rewrite !Z.leb_le; lia.
Qed.

#[global] Instance sort_rel_total path direction :
  Total (Mongo.sort_rel path direction).
Proof.
  intros x y. unfold Mongo.sort_rel.
  destruct (direction <? 0); rewrite !Is_true_true; apply bson_leb_total.
Qed.

#[global] Instance sort_rel_trans path direction :
  Transitive (Mongo.sort_rel path direction).
Proof.
  intros x y z. unfold Mongo.sort_rel.
  destruct (direction <? 0); rewrite !Is_true_true; eauto using bson_leb_trans.
Qed.

(** The first record of a sorted list is below every record of it. *)
Lemma head_merge_sort path direction (l : list UserLogDoc) r x :
  head (merge_sort (Mongo.sort_rel path direction) l) = Some r →
  x ∈ l → Mongo.sort_rel path direction r x ∨ x = r.
Proof.
  intros Hh Hx.
  pose proof (StronglySorted_merge_sort (Mongo.sort_rel path direction) l) as Hs.
  rewrite <- (merge_sort_Permutation (Mongo.sort_rel path direction) l) in Hx.
  destruct (merge_sort (Mongo.sort_rel path direction) l) as [|y m]; [discriminate|].
  injection Hh as ->.
  apply elem_of_cons in Hx as [->|Hx]; [auto|].
  left. inversion Hs as [|? ? _ Hall]; subst.
  rewrite Forall_forall in Hall. auto.
Qed.

Lemma head_merge_sort_Some path direction (l : list UserLogDoc) x :
  x ∈ l → ∃ r, head (merge_sort (Mongo.sort_rel path direction) l) = Some r ∧ r ∈ l.
Proof.
  intros Hx.
  pose proof (merge_sort_Permutation (Mongo.sort_rel path direction) l) as Hp.
  destruct (merge_sort (Mongo.sort_rel path direction) l) as [|y m].
  - apply Permutation_nil_l in Hp. subst. inversion Hx.
  - exists y. split; [reflexivity|]. rewrite <- Hp. left.
Qed.

Lemma head_merge_sort_None path direction (l : list UserLogDoc) :
  l = [] → head (merge_sort (Mongo.sort_rel path direction) l) = None.
Proof. intros ->. reflexivity. Qed.

End bson_order.

Section filter_meaning.

Lemma string_eqb_true (a b : string) : String.eqb a b = true ↔ a = b.
Proof. apply String.eqb_eq. Qed.










End filter_meaning.

Section statistics.

Lemma addToSet_NoDup x s : NoDup s → NoDup (Mongo.addToSet x s).
Proof.
  intros H. unfold Mongo.addToSet. case_bool_decide; [assumption|].
  apply NoDup_app. split_and!; [assumption| |apply NoDup_singleton].
  intros y Hy Hy'. apply list_elem_of_singleton in Hy'. congruence.
Qed.

Lemma addToSet_elem x s y : y ∈ Mongo.addToSet x s ↔ y = x ∨ y ∈ s.
Proof.
  unfold Mongo.addToSet. case_bool_decide.
  - split; [auto|]. intros [->|?]; assumption.
  - rewrite elem_of_app, list_elem_of_singleton. tauto.
Qed.

Lemma group_fold l : ∀ a,
  let a' := foldl Mongo.group_step a l in
  Mongo.acc_totalLogs a' = Mongo.acc_totalLogs a + Z.of_nat (List.length l) ∧
  Mongo.acc_loginCount a' = Mongo.acc_loginCount a + count_action "login" l ∧
  Mongo.acc_logoutCount a' = Mongo.acc_logoutCount a + count_action "logout" l ∧
  (NoDup (Mongo.acc_uniqueUsers a) → NoDup (Mongo.acc_uniqueUsers a')) ∧
  (∀ y, y ∈ Mongo.acc_uniqueUsers a' ↔
        y ∈ Mongo.acc_uniqueUsers a ∨ y ∈ userId <$> l).
Proof.
  induction l as [|r l IH]; intros a; cbn zeta.
  - simpl. unfold count_action. simpl. split_and!; try lia; [auto|].
    intros y. rewrite elem_of_nil. tauto.
  - cbn [foldl]. specialize (IH (Mongo.group_step a r)). cbn zeta in IH.
    destruct IH as (H1 & H2 & H3 & H4 & H5).
    rewrite H1, H2, H3. cbn [Mongo.group_step Mongo.acc_totalLogs
      Mongo.acc_loginCount Mongo.acc_logoutCount Mongo.acc_uniqueUsers] in *.
    unfold count_action. rewrite !filter_cons.
    split_and!.
    + cbn [List.length]. lia.
    + destruct (String.eqb_spec (action r) "login");
        destruct (decide (action r = "login"%string)); try congruence;
        cbn [List.length]; lia.
    + destruct (String.eqb_spec (action r) "logout");
        destruct (decide (action r = "logout"%string)); try congruence;
        cbn [List.length]; lia.
    + intros Hn. apply H4, addToSet_NoDup, Hn.
    + intros y. rewrite H5, addToSet_elem, fmap_cons, elem_of_cons. tauto.
Qed.

Lemma group_all_stats l :
  l ≠ [] →
  (λ a, mkStats (Mongo.acc_totalLogs a) (Mongo.acc_loginCount a)
          (Mongo.acc_logoutCount a)
          (Z.of_nat (List.length (Mongo.acc_uniqueUsers a))))
    <$> Mongo.group_all l = [stats_of l].
Proof.
  intros Hl. destruct l as [|r l]; [congruence|].
  unfold Mongo.group_all. rewrite fmap_cons, fmap_nil.
  destruct (group_fold (r :: l) (Mongo.mkAcc 0 0 0 [])) as (H1 & H2 & H3 & H4 & H5).
  cbn zeta in *. rewrite H1, H2, H3.
  cbn [Mongo.acc_totalLogs Mongo.acc_loginCount Mongo.acc_logoutCount
       Mongo.acc_uniqueUsers] in *.
  rewrite !Z.add_0_l. unfold stats_of, distinct_users. do 3 f_equal.
  rewrite <- (size_list_to_set (C:=gset string)) by (apply H4; constructor).
  f_equal. apply set_eq. intros y. rewrite !elem_of_list_to_set, H5.
  rewrite elem_of_nil. tauto.
Qed.

Lemma stats_of_nil : stats_of [] = mkStats 0 0 0 0.
Proof. reflexivity. Qed.

Lemma window_period period : period_ms (default "7d"%string period) = window period.
Proof.
  destruct period as [p|]; [|reflexivity]. unfold period_ms, window. simpl.
  destruct (String.eqb_spec p "24h") as [->|H1]; [reflexivity|].
  destruct (String.eqb_spec p "7d") as [->|H2]; [reflexivity|].
  destruct (String.eqb_spec p "30d") as [->|H3]; [reflexivity|].
  repeat (match goal with |- context [match ?s with EmptyString => _ | String _ _ => _ end] =>
            destruct s | |- context [match ?a with Ascii _ _ _ _ _ _ _ _ => _ end] => destruct a
          | |- context [if ?b then _ else _] => destruct b end; try reflexivity; try congruence).
Qed.

Lemma recent_matches since l :
  filter (λ r, Mongo.matches
                 [Mongo.Field "createdAt" (Mongo.Range (Some (Mongo.Date since)) None)] r) l
  = recent since l.
Proof.
  unfold recent. apply list_filter_iff. intros r.
  unfold Mongo.matches. simpl. rewrite !andb_true_r.
  rewrite Is_true_true. apply Z.leb_le.
Qed.

End statistics.

Ltac run_async :=
  cbv [mbind Async_bind mret Async_ret emit now new_ObjectId get_users get_logs
       put_logs throw respond try_catch].

Section writer.

Lemma truthy_Some s : s ≠ ""%string → JS.truthy (Some s) = true.
Proof. intros H. simpl. destruct (String.eqb_spec s ""); [congruence|reflexivity]. Qed.

Lemma truthy_inv v : JS.truthy v = true → ∃ s, v = Some s ∧ s ≠ ""%string.
Proof.
  destruct v as [s|]; [|discriminate]. simpl.
  destruct (String.eqb_spec s ""); [discriminate|eauto].
Qed.

Lemma matches_last_login uid r :
  Mongo.matches (last_login_query uid) r = true ↔
  userId r = uid ∧ action r = "login"%string.
Proof.
  unfold Mongo.matches. simpl. rewrite !andb_true_r, andb_true_iff, !String.eqb_eq.
  reflexivity.
Qed.

Lemma in_enum_elem vs s : UserLog.in_enum vs s = true ↔ s ∈ vs.
Proof.
  unfold UserLog.in_enum. rewrite existsb_exists. split.
  - intros [x [Hx E]]. apply String.eqb_eq in E. subst. apply list_elem_of_In, Hx.
  - intros H. exists s. split; [apply list_elem_of_In, H|apply String.eqb_refl].
Qed.

Lemma validate_ok d :
  LogData.username d ≠ ""%string → LogData.role d ∈ role_enum →
  LogData.action d ∈ action_enum → LogData.ipAddress d ≠ ""%string →
  UserLog.validate d = [].
Proof.
  intros He Hr Ha Hi. unfold UserLog.validate.
  destruct (String.eqb_spec (LogData.username d) ""); [congruence|].
  destruct (String.eqb_spec (LogData.ipAddress d) ""); [congruence|].
  rewrite (proj2 (in_enum_elem _ _) Hr), (proj2 (in_enum_elem _ _) Ha).
  reflexivity.
Qed.


Lemma save_ok d w :
  UserLog.validate d = [] →
  UserLog.save d w =
    (Return (stored (oids w (minted w)) d (clock w (ticks w))),
     set_logs (logs w ++ [stored (oids w (minted w)) d (clock w (ticks w))])
       (record_event (LogsInsert (stored (oids w (minted w)) d (clock w (ticks w))))
          (tick (mint w)))).
Proof. intros H. unfold UserLog.save. run_async. rewrite H. reflexivity. Qed.

Lemma save_rejected d w :
  UserLog.validate d ≠ [] →
  UserLog.save d w = (Throw (ValidationError (UserLog.validate d)), mint w).
Proof.
  intros H. unfold UserLog.save. run_async.
  destruct (UserLog.validate d); [congruence|reflexivity].
Qed.

Lemma stamp_login d w :
  stamp_times "login" d w =
    (Return (LogData.set_loginTime d (clock w (ticks w))), tick w).
Proof. reflexivity. Qed.

Lemma findOne_last_login uid w :
  UserLog.findOne (last_login_query uid) "loginTime" (-1) w =
    (Return (last_login uid (logs w)), record_event (LogsRead (last_login_query uid)) w).
Proof. reflexivity. Qed.

Lemma stamp_logout d w :
  stamp_times "logout" d w =
    let w1 := record_event (LogsRead (last_login_query (LogData.userId d))) (tick w) in
    match last_login (LogData.userId d) (logs w) ≫= loginTime with
    | Some t =>
        (Return (LogData.set_sessionDuration
                   (LogData.set_logoutTime d (clock w (ticks w)))
                   (clock w (S (ticks w)) - t)),
         tick w1)
    | None => (Return (LogData.set_logoutTime d (clock w (ticks w))), w1)
    end.
Proof.
  unfold stamp_times.
  change (String.eqb "logout" "login") with false.
  change (String.eqb "logout" "logout") with true.
  cbv iota. run_async.
  cbn [LogData.userId LogData.set_logoutTime].
  rewrite findOne_last_login.
  cbn [logs tick record_event].
  destruct (last_login (LogData.userId d) (logs w)) as [r|]; [|reflexivity].
  cbn [option_bind]. destruct (loginTime r); reflexivity.
Qed.

Lemma stamp_other act d w :
  act ≠ "login"%string → act ≠ "logout"%string → stamp_times act d w = (Return d, w).
Proof.
  intros H1 H2. unfold stamp_times.
  destruct (String.eqb_spec act "login"); [congruence|].
  destruct (String.eqb_spec act "logout"); [congruence|]. reflexivity.
Qed.

Lemma createUserLog_missing req w :
  JS.truthy (CreateReq.userId req) = false ∨
  JS.truthy (CreateReq.action req) = false ∨
  JS.truthy (CreateReq.ipAddress req) = false →
  createUserLog req w =
    (mkResponse 400 (Message false "Missing required fields: userId, action, ipAddress"), w).
Proof.
  intros H. unfold createUserLog.
  assert ((negb (JS.truthy (CreateReq.userId req)) ||
           negb (JS.truthy (CreateReq.action req)) ||
           negb (JS.truthy (CreateReq.ipAddress req)))%bool = true) as ->.
  { destruct H as [->|[->| ->]]; simpl; rewrite ?orb_true_r; reflexivity. }
  reflexivity.
Qed.

Lemma createUserLog_found req w uid act ip :
  event_of req uid act ip →
  createUserLog req w =
    match users w !! uid with
    | None =>
        (mkResponse 404 (Message false "User not found"),
         record_event (UsersRead [uid]) w)
    | Some u =>
        match stamp_times act (initial_logData req u act ip)
                (record_event (UsersRead [uid]) w) with
        | (Return d, w2) =>
            match UserLog.save d w2 with
            | (Return r, w3) =>
                (mkResponse 201 (Created "User log created successfully" r), w3)
            | (Throw e, w3) => (internal_error e, w3)
            end
        | (Throw e, w2) => (internal_error e, w2)
        end
    end.
Proof.
  intros (Hu & Ha & Hi & Hu' & Ha' & Hi').
  unfold createUserLog. rewrite Hu, Ha, Hi, !truthy_Some by assumption.
  cbn [negb orb default from_option id]. unfold User.findById. run_async.
  cbn [users record_event].
  destruct (users w !! uid) as [u|]; [|reflexivity].
  destruct (stamp_times act (initial_logData req u act ip) _) as [[d|e] w2];
    [|reflexivity].
  destruct (UserLog.save d w2) as [[r|e] w3]; reflexivity.
Qed.

End writer.

Section linkage.

Lemma sort_key_loginTime r :
  Mongo.sort_key "loginTime" r = date_or_null (loginTime r).
Proof. reflexivity. Qed.

Lemma login_before (r x : UserLogDoc) t :
  Mongo.sort_rel "loginTime" (-1) r x ∨ x = r →
  loginTime x = Some t → ∃ t', loginTime r = Some t' ∧ t ≤ t'.
Proof.
  intros [H| ->] Hx; [|exists t; split; [assumption|lia]].
  unfold Mongo.sort_rel in H. change (-1 <? 0) with true in H. cbv iota in H.
  apply Is_true_true in H. rewrite !sort_key_loginTime, Hx in H.
  destruct (loginTime r) as [t'|]; simpl in H; [|discriminate].
  exists t'. split; [reflexivity|]. apply Z.leb_le, H.
Qed.

Lemma elem_of_last_login_filter uid (l : list UserLogDoc) r :
  r ∈ filter (λ r, Mongo.matches (last_login_query uid) r) l ↔
  r ∈ l ∧ userId r = uid ∧ action r = "login"%string.
Proof.
  rewrite list_elem_of_filter, Is_true_true, matches_last_login. tauto.
Qed.

(** The linkage finds the login of the user with the greatest time. *)
Lemma last_login_max uid l l0 t0 :
  l0 ∈ l → login_of uid t0 l0 →
  ∃ r t, last_login uid l = Some r ∧ r ∈ l ∧ login_of uid t r ∧
         ∀ l' t', l' ∈ l → login_of uid t' l' → t' ≤ t.
Proof.
  intros Hin (Hu & Ha & Ht). unfold last_login.
  assert (l0 ∈ filter (λ r, Mongo.matches (last_login_query uid) r) l) as Hf
    by (apply elem_of_last_login_filter; auto).
  destruct (head_merge_sort_Some "loginTime" (-1) _ _ Hf) as (r & Hr & Hrf).
  destruct (login_before r l0 t0 (head_merge_sort _ _ _ _ _ Hr Hf) Ht)
    as (t & Hrt & _).
  apply elem_of_last_login_filter in Hrf as (Hrl & Hru & Hra).
  exists r, t. split_and!; try assumption; [split_and!; assumption|].
  intros l' t' Hl' (Hu' & Ha' & Ht').
  assert (l' ∈ filter (λ r, Mongo.matches (last_login_query uid) r) l) as Hf'
    by (apply elem_of_last_login_filter; auto).
  destruct (login_before r l' t' (head_merge_sort _ _ _ _ _ Hr Hf') Ht')
    as (t2 & Hrt2 & Hle).
  congruence.
Qed.

Lemma last_login_elem uid l r :
  last_login uid l = Some r → r ∈ l ∧ userId r = uid ∧ action r = "login"%string.
Proof.
  unfold last_login. intros H. apply elem_of_last_login_filter.
  rewrite <- (merge_sort_Permutation (Mongo.sort_rel "loginTime" (-1))).
  destruct (merge_sort _ _) as [|x m]; [discriminate|].
  injection H as ->. left.
Qed.

Lemma last_login_none uid l :
  (∀ r, r ∈ l → ¬ (userId r = uid ∧ action r = "login"%string)) →
  last_login uid l = None.
Proof.
  intros H. destruct (last_login uid l) as [r|] eqn:E; [|reflexivity].
  apply last_login_elem in E as (Hr & Hu & Ha). destruct (H r Hr). auto.
Qed.

End linkage.

Section logout_events.

Lemma logout_in_enum : "logout"%string ∈ action_enum.
Proof. unfold action_enum. rewrite !elem_of_cons. auto. Qed.

Lemma login_in_enum : "login"%string ∈ action_enum.
Proof. unfold action_enum. rewrite !elem_of_cons. auto. Qed.

(** The outcome of a logout event of a known user with a valid snapshot. *)
Lemma createUserLog_logout req w uid ip u :
  event_of req uid "logout" ip → users w !! uid = Some u → snapshot_ok u →
  ∃ r w',
    createUserLog req w =
      (mkResponse 201 (Created "User log created successfully" r), w') ∧
    logs w' = logs w ++ [r] ∧
    userId r = UserDoc._id u ∧ action r = "logout"%string ∧
    loginTime r = None ∧
    logoutTime r = Some (clock w (ticks w)) ∧
    sessionDuration r =
      (λ t, clock w (S (ticks w)) - t) <$>
        (last_login (UserDoc._id u) (logs w) ≫= loginTime).
Proof.
  intros Hev Hw [He Hr].
  rewrite (createUserLog_found _ _ _ _ _ Hev), Hw, stamp_logout.
  pose proof Hev as (_ & _ & _ & _ & _ & Hip).
  cbn zeta. cbn [LogData.userId initial_logData logs tick record_event].
  destruct (last_login (UserDoc._id u) (logs w) ≫= loginTime) as [t|].
  - rewrite save_ok by (apply validate_ok; [exact He|exact Hr|apply logout_in_enum|exact Hip]).
    eexists _, _. split; [reflexivity|]. cbn. split_and!; reflexivity.
  - rewrite save_ok by (apply validate_ok; [exact He|exact Hr|apply logout_in_enum|exact Hip]).
    eexists _, _. split; [reflexivity|]. cbn. split_and!; reflexivity.
Qed.

End logout_events.

(** C1 (amended): a logout event of a user who has a login record with a
    time is stored with the session duration [t2 - t], where [t] is the
    greatest login time among the logins of that user and [t2] is the clock
    read after the lookup; the stored [logoutTime] is the read [t1] taken
    before the lookup, so the duration is [logoutTime - t] exactly when the
    two reads agree. *)
Theorem createUserLog_links_latest_login req w uid ip u l0 t0 :
  event_of req uid "logout" ip → users w !! uid = Some u → snapshot_ok u →
  l0 ∈ logs w → login_of (UserDoc._id u) t0 l0 →
  ∃ r w' l t,
    createUserLog req w =
      (mkResponse 201 (Created "User log created successfully" r), w') ∧
    logs w' = logs w ++ [r] ∧
    userId r = UserDoc._id u ∧ action r = "logout"%string ∧
    l ∈ logs w ∧ login_of (UserDoc._id u) t l ∧
    (∀ l' t', l' ∈ logs w → login_of (UserDoc._id u) t' l' → t' ≤ t) ∧
    logoutTime r = Some (clock w (ticks w)) ∧
    sessionDuration r = Some (clock w (S (ticks w)) - t) ∧
    (clock w (S (ticks w)) = clock w (ticks w) →
     sessionDuration r = Some (clock w (ticks w) - t)).
Proof.
  intros Hev Hw Hs Hl0 Hlogin.
  destruct (createUserLog_logout req w uid ip u Hev Hw Hs)
    as (r & w' & Hrun & Hlogs & Hu & Ha & _ & Hout & Hd).
  destruct (last_login_max _ _ _ _ Hl0 Hlogin) as (l & t & Hlast & Hl & Hlt & Hmax).
  rewrite Hlast in Hd. destruct Hlt as (Hlu & Hla & Hltime).
  cbn in Hd. rewrite Hltime in Hd. cbn in Hd.
  exists r, w', l, t. split_and!; try assumption; [split_and!; assumption|].
  intros E. rewrite Hd, E. reflexivity.
Qed.

Lemma createUserLog_links_latest_login_witness :
  ∃ r w' l t,
    createUserLog (Sample.event "u1" "logout")
      (Sample.world [Sample.older_login; Sample.old_login] Sample.steady_clock) =
      (mkResponse 201 (Created "User log created successfully" r), w') ∧
    logs w' = [Sample.older_login; Sample.old_login] ++ [r] ∧
    userId r = "u1"%string ∧ action r = "logout"%string ∧
    l ∈ [Sample.older_login; Sample.old_login] ∧ login_of "u1" t l ∧
    (∀ l' t', l' ∈ [Sample.older_login; Sample.old_login] →
              login_of "u1" t' l' → t' ≤ t) ∧
    logoutTime r = Some 1000 ∧
    sessionDuration r = Some (1010 - t) ∧
    (1010 = 1000 → sessionDuration r = Some (1000 - t)).
Proof.
  apply (createUserLog_links_latest_login (Sample.event "u1" "logout")
           (Sample.world [Sample.older_login; Sample.old_login] Sample.steady_clock)
           "u1" "10.0.0.1" Sample.bob Sample.older_login 100).
  - repeat split; discriminate.
  - reflexivity.
  - split; [discriminate|]. vm_compute. right. left.
  - left.
  - repeat split.
Defined.

(** C1 as stated fails: the clock is read once for [logoutTime] and once
    more, after the lookup, for the duration.  With a login at 400 and
    reads 1000 and 1010 the stored duration is 610, not 1000 - 400. *)
Lemma createUserLog_duration_counterexample :
  ∃ r w',
    createUserLog (Sample.event "u1" "logout")
      (Sample.world [Sample.old_login] Sample.steady_clock) =
      (mkResponse 201 (Created "User log created successfully" r), w') ∧
    login_of "u1" 400 Sample.old_login ∧
    logoutTime r = Some 1000 ∧
    sessionDuration r = Some 610 ∧
    sessionDuration r ≠ Some (1000 - 400).
Proof.
  eexists _, _. split; [vm_compute; reflexivity|].
  repeat split. discriminate.
Qed.

(** C9: a logout event of a user without any login record is stored with no
    session duration, and the request succeeds with status 201. *)
Theorem createUserLog_logout_without_login req w uid ip u :
  event_of req uid "logout" ip → users w !! uid = Some u → snapshot_ok u →
  (∀ l, l ∈ logs w → ¬ (userId l = UserDoc._id u ∧ action l = "login"%string)) →
  ∃ r w',
    createUserLog req w =
      (mkResponse 201 (Created "User log created successfully" r), w') ∧
    logs w' = logs w ++ [r] ∧
    userId r = UserDoc._id u ∧ action r = "logout"%string ∧
    logoutTime r = Some (clock w (ticks w)) ∧
    sessionDuration r = None.
Proof.
  intros Hev Hw Hs Hno.
  destruct (createUserLog_logout req w uid ip u Hev Hw Hs)
    as (r & w' & Hrun & Hlogs & Hu & Ha & _ & Hout & Hd).
  rewrite (last_login_none _ _ Hno) in Hd.
  exists r, w'. split_and!; assumption.
Qed.

Lemma createUserLog_logout_without_login_witness :
  ∃ r w',
    createUserLog (Sample.event "u1" "logout") (Sample.world [] Sample.steady_clock) =
      (mkResponse 201 (Created "User log created successfully" r), w') ∧
    logs w' = [] ++ [r] ∧
    userId r = "u1"%string ∧ action r = "logout"%string ∧
    logoutTime r = Some 1000 ∧
    sessionDuration r = None.
Proof.
  apply (createUserLog_logout_without_login (Sample.event "u1" "logout")
           (Sample.world [] Sample.steady_clock) "u1" "10.0.0.1" Sample.bob).
  - repeat split; discriminate.
  - reflexivity.
  - split; [discriminate|]. vm_compute. right. left.
  - intros l Hl. vm_compute in Hl. inversion Hl.
Defined.

Section writer_inversion.

Lemma event_of_truthy req :
  JS.truthy (CreateReq.userId req) = true →
  JS.truthy (CreateReq.action req) = true →
  JS.truthy (CreateReq.ipAddress req) = true →
  ∃ uid act ip, event_of req uid act ip.
Proof.
  intros (uid & Hu & Hu')%truthy_inv (act & Ha & Ha')%truthy_inv
         (ip & Hi & Hi')%truthy_inv.
  exists uid, act, ip. repeat split; assumption.
Qed.

(** What [save] followed by the 201 response leaves when it answers 201. *)
Lemma created_inv d w2 m r w' :
  match UserLog.save d w2 with
  | (Return r, w3) => (mkResponse 201 (Created "User log created successfully" r), w3)
  | (Throw e, w3) => (internal_error e, w3)
  end = (mkResponse 201 (Created m r), w') →
  r = stored (oids w2 (minted w2)) d (clock w2 (ticks w2)) ∧
  logs w' = logs w2 ++ [r].
Proof.
  destruct (UserLog.validate d) as [|p ps] eqn:E.
  - rewrite save_ok by assumption. intros [= _ <- <-]. split; reflexivity.
  - rewrite save_rejected by (rewrite E; discriminate). discriminate.
Qed.

(** Every record the writer creates, by the branch that produced it. *)
Lemma createUserLog_created req w m r w' :
  createUserLog req w = (mkResponse 201 (Created m r), w') →
  ∃ uid act ip u id t,
    event_of req uid act ip ∧ users w !! uid = Some u ∧
    logs w' = logs w ++ [r] ∧
    ((act = "login"%string ∧
      r = stored id (LogData.set_loginTime (initial_logData req u act ip)
                       (clock w (ticks w))) t) ∨
     (act = "logout"%string ∧
      ∃ l login_at, last_login (UserDoc._id u) (logs w) = Some l ∧
        loginTime l = Some login_at ∧
        r = stored id (LogData.set_sessionDuration
                         (LogData.set_logoutTime (initial_logData req u act ip)
                            (clock w (ticks w)))
                         (clock w (S (ticks w)) - login_at)) t) ∨
     (act = "logout"%string ∧
      r = stored id (LogData.set_logoutTime (initial_logData req u act ip)
                       (clock w (ticks w))) t) ∨
     (act ≠ "login"%string ∧ act ≠ "logout"%string ∧
      r = stored id (initial_logData req u act ip) t)).
Proof.
  intros Hrun.
  destruct (JS.truthy (CreateReq.userId req)) eqn:Tu;
    [|rewrite createUserLog_missing in Hrun by auto; discriminate].
  destruct (JS.truthy (CreateReq.action req)) eqn:Ta;
    [|rewrite createUserLog_missing in Hrun by auto; discriminate].
  destruct (JS.truthy (CreateReq.ipAddress req)) eqn:Ti;
    [|rewrite createUserLog_missing in Hrun by auto; discriminate].
  destruct (event_of_truthy req Tu Ta Ti) as (uid & act & ip & Hev).
  rewrite (createUserLog_found _ _ _ _ _ Hev) in Hrun.
  destruct (users w !! uid) as [u|] eqn:Hw; [|discriminate].
  exists uid, act, ip, u.
  destruct (String.eqb_spec act "login") as [->|Hn1];
    [|destruct (String.eqb_spec act "logout") as [->|Hn2]].
  - rewrite stamp_login in Hrun. apply created_inv in Hrun as [Hr Hl].
    cbn [logs clock ticks tick record_event] in Hr, Hl.
    eexists _, _. split_and!; [assumption|exact Hw|exact Hl|].
    left. split; [reflexivity|exact Hr].
  - rewrite stamp_logout in Hrun. cbn zeta in Hrun.
    cbn [LogData.userId initial_logData logs tick record_event] in Hrun.
    destruct (last_login (UserDoc._id u) (logs w)) as [l|] eqn:Hlast;
      [destruct (loginTime l) as [login_at|] eqn:Hlt|]; cbn in Hrun;
      try rewrite Hlt in Hrun; cbn in Hrun;
      apply created_inv in Hrun as [Hr Hl];
      cbn [logs clock ticks tick record_event] in Hr, Hl;
      (eexists _, _; split_and!; [assumption|exact Hw|exact Hl|]).
    + right. left. split; [reflexivity|]. exists l, login_at.
      split_and!; [reflexivity|assumption|exact Hr].
    + right. right. left. split; [reflexivity|exact Hr].
    + right. right. left. split; [reflexivity|exact Hr].
  - rewrite stamp_other in Hrun by assumption.
    apply created_inv in Hrun as [Hr Hl].
    cbn [logs clock ticks tick record_event] in Hr, Hl.
    eexists _, _. split_and!; [assumption|exact Hw|exact Hl|].
    right. right. right. split_and!; [assumption|assumption|exact Hr].
Qed.

End writer_inversion.

(** C5 (amended): on every record the writer creates, [loginTime] is set
    exactly when the action is login and [logoutTime] exactly when it is
    logout; [sessionDuration], when present, is on a logout record and is
    the clock read after the lookup minus the time of a login of the same
    user, hence non-negative whenever that login is not later than the
    read. *)
Theorem createUserLog_times req w m r w' :
  createUserLog req w = (mkResponse 201 (Created m r), w') →
  logs w' = logs w ++ [r] ∧
  (is_Some (loginTime r) ↔ action r = "login"%string) ∧
  (is_Some (logoutTime r) ↔ action r = "logout"%string) ∧
  (∀ d, sessionDuration r = Some d →
        action r = "logout"%string ∧
        ∃ l t, l ∈ logs w ∧ login_of (userId r) t l ∧
               d = clock w (S (ticks w)) - t ∧
               (t ≤ clock w (S (ticks w)) → 0 ≤ d)).
Proof.
  intros Hrun.
  destruct (createUserLog_created _ _ _ _ _ Hrun)
    as (uid & act & ip & u & id & t & Hev & Hw & Hl & Hcase).
  split; [exact Hl|].
  destruct Hcase as [[-> ->]|[(-> & l & login_at & Hlast & Hlt & ->)|[[-> ->]|(H1 & H2 & ->)]]];
    cbn.
  - split_and!.
    + split; [reflexivity|eauto].
    + split; [intros [? [=]]|discriminate].
    + intros d [=].
  - split_and!.
    + split; [intros [? [=]]|discriminate].
    + split; [reflexivity|eauto].
    + intros d [= <-]. split; [reflexivity|].
      apply last_login_elem in Hlast as (Hin & Hu & Ha).
      exists l, login_at. split_and!; [assumption|split_and!; assumption|reflexivity|lia].
  - split_and!.
    + split; [intros [? [=]]|discriminate].
    + split; [reflexivity|eauto].
    + intros d [=].
  - split_and!.
    + split; [intros [? [=]]|congruence].
    + split; [intros [? [=]]|congruence].
    + intros d [=].
Qed.

Lemma createUserLog_times_witness :
  ∃ m r w',
    createUserLog (Sample.event "u1" "logout")
      (Sample.world [Sample.old_login] Sample.steady_clock) =
      (mkResponse 201 (Created m r), w') ∧
    logs w' = [Sample.old_login] ++ [r] ∧
    (is_Some (loginTime r) ↔ action r = "login"%string) ∧
    (is_Some (logoutTime r) ↔ action r = "logout"%string) ∧
    (∀ d, sessionDuration r = Some d →
          action r = "logout"%string ∧
          ∃ l t, l ∈ [Sample.old_login] ∧ login_of (userId r) t l ∧
                 d = 1010 - t ∧ (t ≤ 1010 → 0 ≤ d)).
Proof.
  eexists _, _, _. split; [vm_compute; reflexivity|].
  apply (createUserLog_times (Sample.event "u1" "logout")
           (Sample.world [Sample.old_login] Sample.steady_clock)
           "User log created successfully").
  vm_compute. reflexivity.
Defined.

(** C5 as stated fails on non-negativity: when the clock is set back
    between a login and the next logout of the same user, both recorded by
    the writer, the logout record carries a negative duration. *)
Lemma createUserLog_times_counterexample :
  ∃ m1 r1 w1 m2 r2 w2,
    createUserLog (Sample.event "u1" "login") (Sample.world [] Sample.adjusted_clock) =
      (mkResponse 201 (Created m1 r1), w1) ∧
    createUserLog (Sample.event "u1" "logout") w1 =
      (mkResponse 201 (Created m2 r2), w2) ∧
    sessionDuration r2 = Some (-4000) ∧
    ¬ times_invariant r2.
Proof.
  eexists _, _, _, _, _, _.
  split; [vm_compute; reflexivity|].
  split; [vm_compute; reflexivity|].
  split; [reflexivity|].
  intros (_ & _ & H). destruct (H (-4000) eq_refl) as [Hneg _]. lia.
Qed.



Section reader.

Lemma getUserLogs_run req w :
  Mongo.query_ok (build_filter req) = true →
  0 ≤ (page_of req - 1) * limit_of req →
  getUserLogs req w =
    (mkResponse 200
       (Page (populated w <$> page_docs req w)
          (mkPagination (page_of req)
             (JS.ceil_div (Z.of_nat (List.length (matching req w))) (limit_of req))
             (Z.of_nat (List.length (matching req w))) (limit_of req))),
     record_event (LogsRead (build_filter req))
       (record_event (UsersRead (userId <$> page_docs req w))
          (record_event (LogsRead (build_filter req)) w))).
Proof.
  intros Hok Hskip. unfold getUserLogs, UserLog.find, UserLog.countDocuments,
    User.populate, UserLog.check.
  fold (page_of req) (limit_of req). rewrite Hok. run_async.
  destruct ((page_of req - 1) * limit_of req <? 0) eqn:E; [apply Z.ltb_lt in E; lia|].
  reflexivity.
Qed.




Lemma in_order_perm req w : in_order req w ≡ₚ matching req w.
Proof. apply merge_sort_Permutation. Qed.






End reader.








(** The snapshot and the live data side by side: the record keeps the
    address the user had at the event, the populated [userId] carries the
    address the directory holds now. *)
Example getUserLogs_snapshot_and_live :
  ∃ d pg w',
    getUserLogs Sample.no_params (Sample.world [Sample.stale_login] Sample.steady_clock) =
      (mkResponse 200 (Page [d] pg), w') ∧
    username (doc d) = "bob@old.io"%string ∧
    ref_email <$> populated_userId d = Some "bob@x.io"%string.
Proof. eexists _, _, _. split; [vm_compute; reflexivity|]. split; reflexivity. Qed.

(** C3: the statistics are computed over the records created at or after
    [now - window], where the window is 24 hours, 30 days, or 7 days for
    [7d], a missing and any other period; they are the number of those
    records, of those with action login, of those with action logout, and
    of the distinct [userId] among them; without such records the four are
    zero, and the request always succeeds with status 200. *)
Theorem getUserLogStats_counts period w :
  ∃ w',
    getUserLogStats period w =
      (mkResponse 200
         (StatsOf (stats_of (recent (clock w (ticks w) - window period) (logs w)))),
       w') ∧
    logs w' = logs w ∧
    (recent (clock w (ticks w) - window period) (logs w) = [] →
     stats_of (recent (clock w (ticks w) - window period) (logs w)) = mkStats 0 0 0 0).
Proof.
  unfold getUserLogStats, UserLog.aggregate, UserLog.check. run_async.
  cbn [Mongo.query_ok forallb Mongo.clause_ok Mongo.cond_ok Mongo.bound_ok andb].
  cbn [logs clock ticks tick record_event].
  rewrite window_period, recent_matches.
  eexists (record_event _ (tick w)). split_and!; [|reflexivity|intros ->; reflexivity].
  destruct (recent (clock w (ticks w) - window period) (logs w)) as [|r l] eqn:E.
  - reflexivity.
  - rewrite group_all_stats by discriminate. reflexivity.
Qed.

Section deletion.

Lemma matches_by_id id r :
  Mongo.matches (UserLog.by_id id) r = true ↔ _id r = id.
Proof.
  unfold Mongo.matches. simpl. rewrite andb_true_r. apply String.eqb_eq.
Qed.

Lemma matches_id_in ids r :
  Mongo.matches [Mongo.Field "_id" (Mongo.In (BOid <$> ids))] r = true ↔ _id r ∈ ids.
Proof.
  unfold Mongo.matches. cbn [forallb Mongo.eval_clause].
  change (field "_id" r) with (Some (BOid (_id r))).
  cbn [Mongo.eval_cond default from_option id]. rewrite andb_true_r.
  induction ids as [|i ids IH].
  - simpl. split; [discriminate|]. intros H. inversion H.
  - rewrite fmap_cons. cbn [existsb bson_eqb].
    rewrite orb_true_iff, IH, String.eqb_eq, elem_of_cons. reflexivity.
Qed.






End deletion.





(* ------------------------------------------------------------------ *)
(** * Further properties: the handlers, the client, the routes, the task filter *)

(* ------------------------------------------------------------------ *)
(** ** The writer, beyond logout *)

Section writer_paths.

Lemma enum_not_login_logout act :
  act ∈ ["register"; "password_reset"]%string →
  act ≠ "login"%string ∧ act ≠ "logout"%string ∧ act ∈ action_enum.
Proof.
  rewrite !elem_of_cons, elem_of_nil. unfold action_enum.
  intros [->|[->|[]]]; split_and!; try discriminate; rewrite !elem_of_cons; auto.
Qed.

Lemma or_else_nonempty a b : b ≠ ""%string → JS.or_else a b ≠ ""%string.
Proof.
  intros Hb. unfold JS.or_else. destruct a as [s|]; [|exact Hb].
  destruct (String.eqb_spec s ""); assumption.
Qed.

(** The three stamps keep everything but the field they set. *)
Lemma stamp_times_fields act d w d' w' :
  stamp_times act d w = (Return d', w') →
  LogData.userId d' = LogData.userId d ∧ LogData.username d' = LogData.username d ∧
  LogData.role d' = LogData.role d ∧ LogData.action d' = LogData.action d ∧
  LogData.ipAddress d' = LogData.ipAddress d ∧
  LogData.tokenName d' = LogData.tokenName d ∧
  LogData.userAgent d' = LogData.userAgent d ∧
  logs w' = logs w ∧ users w' = users w ∧ minted w' = minted w ∧
  oids w' = oids w ∧ clock w' = clock w.
Proof.
  destruct (String.eqb_spec act "login") as [->|H1];
    [|destruct (String.eqb_spec act "logout") as [->|H2]].
  - rewrite stamp_login. intros [= <- <-]. split_and!; reflexivity.
  - rewrite stamp_logout. cbn zeta.
    destruct (last_login (LogData.userId d) (logs w) ≫= loginTime);
      intros [= <- <-]; split_and!; reflexivity.
  - rewrite stamp_other by assumption. intros [= <- <-]. split_and!; reflexivity.
Qed.

Lemma stamp_times_returns act d w : ∃ d' w', stamp_times act d w = (Return d', w').
Proof.
  destruct (String.eqb_spec act "login") as [->|H1];
    [|destruct (String.eqb_spec act "logout") as [->|H2]].
  - rewrite stamp_login. eauto.
  - rewrite stamp_logout. cbn zeta.
    destruct (last_login (LogData.userId d) (logs w) ≫= loginTime); eauto.
  - rewrite stamp_other by assumption. eauto.
Qed.

(** The trace a stamp leaves holds reads only. *)
Lemma stamp_times_trace act d w d' w' :
  stamp_times act d w = (Return d', w') →
  ∃ es, trace w' = trace w ++ es ∧ Forall (λ e, mutating e = false) es.
Proof.
  destruct (String.eqb_spec act "login") as [->|H1];
    [|destruct (String.eqb_spec act "logout") as [->|H2]].
  - rewrite stamp_login. intros [= <- <-]. exists []. rewrite app_nil_r. auto.
  - rewrite stamp_logout. cbn zeta.
    destruct (last_login (LogData.userId d) (logs w) ≫= loginTime);
      intros [= <- <-]; eexists [_]; (split; [reflexivity|repeat constructor]).
  - rewrite stamp_other by assumption. intros [= <- <-]. exists [].
    rewrite app_nil_r. auto.
Qed.

Lemma validate_nil d :
  UserLog.validate d = [] →
  LogData.username d ≠ ""%string ∧ LogData.role d ∈ role_enum ∧
  LogData.action d ∈ action_enum ∧ LogData.ipAddress d ≠ ""%string.
Proof.
  unfold UserLog.validate.
  destruct (String.eqb_spec (LogData.username d) ""); [discriminate|].
  destruct (UserLog.in_enum role_enum (LogData.role d)) eqn:Er; [|discriminate].
  destruct (UserLog.in_enum action_enum (LogData.action d)) eqn:Ea; [|discriminate].
  destruct (String.eqb_spec (LogData.ipAddress d) ""); [discriminate|].
  intros _. split_and!; try assumption; apply in_enum_elem; assumption.
Qed.

(** The whole of [createUserLog] for a well-formed body of a known user:
    the stamp, then the validators decide. *)
Lemma createUserLog_known req w uid act ip u :
  event_of req uid act ip → users w !! uid = Some u →
  ∃ d w2,
    stamp_times act (initial_logData req u act ip) (record_event (UsersRead [uid]) w)
      = (Return d, w2) ∧
    createUserLog req w =
      match UserLog.validate d with
      | [] =>
          (mkResponse 201
             (Created "User log created successfully"
                (stored (oids w2 (minted w2)) d (clock w2 (ticks w2)))),
           set_logs (logs w2 ++ [stored (oids w2 (minted w2)) d (clock w2 (ticks w2))])
             (record_event
                (LogsInsert (stored (oids w2 (minted w2)) d (clock w2 (ticks w2))))
                (tick (mint w2))))
      | _ => (internal_error (ValidationError (UserLog.validate d)), mint w2)
      end.
Proof.
  intros Hev Hw.
  destruct (stamp_times_returns act (initial_logData req u act ip)
              (record_event (UsersRead [uid]) w)) as (d & w2 & Hst).
  exists d, w2. split; [exact Hst|].
  rewrite (createUserLog_found _ _ _ _ _ Hev), Hw, Hst.
  destruct (UserLog.validate d) as [|p ps] eqn:E.
  - rewrite save_ok by assumption. reflexivity.
  - rewrite save_rejected by (rewrite E; discriminate). rewrite E. reflexivity.
Qed.

End writer_paths.

(** X1: a login event of a known user with a valid snapshot is stored with
    [loginTime] the clock read of the handler, no [logoutTime] and no
    [sessionDuration]; the handler reads the directory once and never the
    log collection before it inserts. *)
Theorem createUserLog_login_record req w uid ip u :
  event_of req uid "login" ip → users w !! uid = Some u → snapshot_ok u →
  ∃ r w',
    createUserLog req w =
      (mkResponse 201 (Created "User log created successfully" r), w') ∧
    logs w' = logs w ++ [r] ∧
    userId r = UserDoc._id u ∧ action r = "login"%string ∧
    loginTime r = Some (clock w (ticks w)) ∧
    logoutTime r = None ∧ sessionDuration r = None ∧
    createdAt r = clock w (S (ticks w)) ∧
    trace w' = trace w ++ [UsersRead [uid]; LogsInsert r].
Proof.
  intros Hev Hw [He Hr].
  pose proof Hev as (_ & _ & _ & _ & _ & Hip).
  rewrite (createUserLog_found _ _ _ _ _ Hev), Hw, stamp_login.
  rewrite save_ok by (apply validate_ok; [exact He|exact Hr|apply login_in_enum|exact Hip]).
  eexists _, _. split; [reflexivity|]. cbn.
  split_and!; try reflexivity. rewrite <- app_assoc. reflexivity.
Qed.

Lemma createUserLog_login_record_witness :
  ∃ r w',
    createUserLog (Sample.event "u1" "login") (Sample.world [] Sample.steady_clock) =
      (mkResponse 201 (Created "User log created successfully" r), w') ∧
    logs w' = [] ++ [r] ∧
    userId r = "u1"%string ∧ action r = "login"%string ∧
    loginTime r = Some 1000 ∧
    logoutTime r = None ∧ sessionDuration r = None ∧
    createdAt r = 1010 ∧
    trace w' = [] ++ [UsersRead ["u1"%string]; LogsInsert r].
Proof.
  apply (createUserLog_login_record (Sample.event "u1" "login")
           (Sample.world [] Sample.steady_clock) "u1" "10.0.0.1" Sample.bob).
  - repeat split; discriminate.
  - reflexivity.
  - split; [discriminate|]. vm_compute. right. left.
Defined.

(** X2: a register or password_reset event is stored with none of the
    three times; the handler reads the clock once, for the timestamps, and
    does not look at the log collection. *)
Theorem createUserLog_untimed_record req w uid act ip u :
  event_of req uid act ip → act ∈ ["register"; "password_reset"]%string →
  users w !! uid = Some u → snapshot_ok u →
  ∃ r w',
    createUserLog req w =
      (mkResponse 201 (Created "User log created successfully" r), w') ∧
    logs w' = logs w ++ [r] ∧ action r = act ∧
    loginTime r = None ∧ logoutTime r = None ∧ sessionDuration r = None ∧
    createdAt r = clock w (ticks w) ∧ ticks w' = S (ticks w) ∧
    trace w' = trace w ++ [UsersRead [uid]; LogsInsert r].
Proof.
  intros Hev Hact Hw [He Hr].
  pose proof Hev as (_ & _ & _ & _ & _ & Hip).
  destruct (enum_not_login_logout act Hact) as (H1 & H2 & Henum).
  rewrite (createUserLog_found _ _ _ _ _ Hev), Hw, stamp_other by assumption.
  rewrite save_ok by (apply validate_ok; assumption).
  eexists _, _. split; [reflexivity|]. cbn.
  split_and!; try reflexivity. rewrite <- app_assoc. reflexivity.
Qed.

Lemma createUserLog_untimed_record_witness :
  ∃ r w',
    createUserLog (Sample.event "u1" "register") (Sample.world [] Sample.steady_clock) =
      (mkResponse 201 (Created "User log created successfully" r), w') ∧
    logs w' = [] ++ [r] ∧ action r = "register"%string ∧
    loginTime r = None ∧ logoutTime r = None ∧ sessionDuration r = None ∧
    createdAt r = 1000 ∧ ticks w' = 1%nat ∧
    trace w' = [] ++ [UsersRead ["u1"%string]; LogsInsert r].
Proof.
  apply (createUserLog_untimed_record (Sample.event "u1" "register")
           (Sample.world [] Sample.steady_clock) "u1" "register" "10.0.0.1" Sample.bob).
  - repeat split; discriminate.
  - left.
  - reflexivity.
  - split; [discriminate|]. vm_compute. right. left.
Defined.

Section writer_shape.

(** The three ways [createUserLog] can go. *)
Lemma createUserLog_shape req w :
  createUserLog req w =
    (mkResponse 400 (Message false "Missing required fields: userId, action, ipAddress"), w)
  ∨ (∃ uid act ip,
       event_of req uid act ip ∧ users w !! uid = None ∧
       createUserLog req w =
         (mkResponse 404 (Message false "User not found"),
          record_event (UsersRead [uid]) w))
  ∨ (∃ uid act ip u d w2,
       event_of req uid act ip ∧ users w !! uid = Some u ∧
       stamp_times act (initial_logData req u act ip) (record_event (UsersRead [uid]) w)
         = (Return d, w2) ∧
       createUserLog req w =
         match UserLog.validate d with
         | [] =>
             (mkResponse 201
                (Created "User log created successfully"
                   (stored (oids w2 (minted w2)) d (clock w2 (ticks w2)))),
              set_logs (logs w2 ++ [stored (oids w2 (minted w2)) d (clock w2 (ticks w2))])
                (record_event
                   (LogsInsert (stored (oids w2 (minted w2)) d (clock w2 (ticks w2))))
                   (tick (mint w2))))
         | _ => (internal_error (ValidationError (UserLog.validate d)), mint w2)
         end).
Proof.
  destruct (JS.truthy (CreateReq.userId req)) eqn:Tu;
    [|left; apply createUserLog_missing; auto].
  destruct (JS.truthy (CreateReq.action req)) eqn:Ta;
    [|left; apply createUserLog_missing; auto].
  destruct (JS.truthy (CreateReq.ipAddress req)) eqn:Ti;
    [|left; apply createUserLog_missing; auto].
  destruct (event_of_truthy req Tu Ta Ti) as (uid & act & ip & Hev).
  right. destruct (users w !! uid) as [u|] eqn:Hw.
  - right. destruct (createUserLog_known req w uid act ip u Hev Hw) as (d & w2 & Hst & Hrun).
    exists uid, act, ip, u, d, w2. auto.
  - left. exists uid, act, ip. split_and!; [assumption..|].
    rewrite (createUserLog_found _ _ _ _ _ Hev), Hw. reflexivity.
Qed.

(** A 201 answer, taken apart. *)
Lemma createUserLog_201 req w m r w' :
  createUserLog req w = (mkResponse 201 (Created m r), w') →
  ∃ uid act ip u d w2,
    event_of req uid act ip ∧ users w !! uid = Some u ∧
    stamp_times act (initial_logData req u act ip) (record_event (UsersRead [uid]) w)
      = (Return d, w2) ∧
    UserLog.validate d = [] ∧
    r = stored (oids w2 (minted w2)) d (clock w2 (ticks w2)) ∧
    w' = set_logs (logs w2 ++ [r]) (record_event (LogsInsert r) (tick (mint w2))) ∧
    logs w2 = logs w ∧ users w2 = users w ∧ minted w2 = minted w ∧
    oids w2 = oids w ∧ clock w2 = clock w.
Proof.
  intros Hrun.
  destruct (createUserLog_shape req w)
    as [E|[(uid & act & ip & _ & _ & E)|(uid & act & ip & u & d & w2 & Hev & Hw & Hst & E)]];
    rewrite E in Hrun; try discriminate.
  destruct (UserLog.validate d) as [|p ps] eqn:Ev; [|discriminate].
  destruct (stamp_times_fields _ _ _ _ _ Hst)
    as (_ & _ & _ & _ & _ & _ & _ & Hl & Hu & Hm & Ho & Hc).
  cbn [logs users minted oids clock record_event] in Hl, Hu, Hm, Ho, Hc.
  injection Hrun as _ Hr Hw'.
  exists uid, act, ip, u, d, w2.
  split_and!; try assumption; [symmetry; exact Hr|].
  rewrite <- Hw', <- Hr. reflexivity.
Qed.

End writer_shape.

Section writer_invariants.

Lemma stamp_times_times act d w d' w' :
  LogData.loginTime d = None → LogData.logoutTime d = None →
  LogData.sessionDuration d = None →
  stamp_times act d w = (Return d', w') →
  (is_Some (LogData.loginTime d') ↔ act = "login"%string) ∧
  (is_Some (LogData.logoutTime d') ↔ act = "logout"%string) ∧
  (is_Some (LogData.sessionDuration d') → act = "logout"%string).
Proof.
  intros H1 H2 H3.
  assert (∀ A (P : Prop), (@is_Some A None ↔ P) ↔ ¬ P) as Hnone.
  { intros A P. split.
    - intros [_ H] HP. destruct (H HP) as [? [=]].
    - intros H. split; [intros [? [=]]|contradiction]. }
  assert (∀ A (x : A) (P : Prop), (is_Some (Some x) ↔ P) ↔ P) as Hsome.
  { intros A x P. split; [intros [H _]; eauto|intros H; split; eauto]. }
  destruct (String.eqb_spec act "login") as [->|Hn1];
    [|destruct (String.eqb_spec act "logout") as [->|Hn2]].
  - rewrite stamp_login. intros [= <- <-]. cbn. rewrite H2, H3, Hnone, Hsome.
    split_and!; [reflexivity|discriminate|intros [? [=]]].
  - rewrite stamp_logout. cbn zeta.
    destruct (last_login (LogData.userId d) (logs w) ≫= loginTime);
      intros [= <- <-]; cbn; rewrite ?H1, ?H3, Hnone, Hsome;
      (split_and!; [discriminate|reflexivity|reflexivity]).
  - rewrite stamp_other by assumption. intros [= <- <-].
    rewrite H1, H2, H3, !Hnone.
    split_and!; [assumption|assumption|intros [? [=]]].
Qed.

Lemma well_formed_stored req u act ip d w w2 id t :
  act ≠ ""%string →
  stamp_times act (initial_logData req u act ip) w = (Return d, w2) →
  UserLog.validate d = [] →
  well_formed (stored id d t).
Proof.
  intros Hact Hst Hv.
  destruct (stamp_times_fields _ _ _ _ _ Hst) as (_ & _ & _ & Ha & _ & Htok & Hua & _).
  destruct (stamp_times_times act (initial_logData req u act ip) w d w2
              eq_refl eq_refl eq_refl Hst) as (T1 & T2 & T3).
  destruct (validate_nil d Hv) as (V1 & V2 & V3 & V4).
  cbn [initial_logData LogData.action LogData.tokenName LogData.userAgent] in Ha, Htok, Hua.
  unfold well_formed, stored.
  cbn [username ipAddress role action tokenName userAgent loginTime logoutTime
       sessionDuration updatedAt createdAt].
  rewrite Ha, Htok, Hua.
  split_and!; try assumption; try reflexivity.
  - rewrite <- Ha. exact V3.
  - apply or_else_nonempty. discriminate.
  - apply or_else_nonempty. discriminate.
Qed.

Lemma Forall_remove_first (P : UserLogDoc → Prop) q l :
  Forall P l → Forall P (UserLog.remove_first q l).
Proof.
  induction 1 as [|x l Hx Hl IH]; [constructor|].
  cbn [UserLog.remove_first]. destruct (Mongo.matches q x); [exact Hl|].
  constructor; assumption.
Qed.

(** [getUserLogs] for any request: what it answers and what it leaves. *)
Lemma getUserLogs_shape req w :
  (getUserLogs req w =
     (internal_error QueryRejected, record_event (LogsRead (build_filter req)) w) ∧
   (Mongo.query_ok (build_filter req) = false ∨ (page_of req - 1) * limit_of req < 0))
  ∨ (Mongo.query_ok (build_filter req) = true ∧ 0 ≤ (page_of req - 1) * limit_of req ∧
     getUserLogs req w =
       (mkResponse 200
          (Page (populated w <$> page_docs req w)
             (mkPagination (page_of req)
                (JS.ceil_div (Z.of_nat (List.length (matching req w))) (limit_of req))
                (Z.of_nat (List.length (matching req w))) (limit_of req))),
        record_event (LogsRead (build_filter req))
          (record_event (UsersRead (userId <$> page_docs req w))
             (record_event (LogsRead (build_filter req)) w)))).
Proof.
  destruct (Mongo.query_ok (build_filter req)) eqn:Hok.
  - destruct (Z.ltb_spec ((page_of req - 1) * limit_of req) 0) as [Hneg|Hpos].
    + left. split; [|auto].
      unfold getUserLogs, UserLog.find, UserLog.check.
      fold (page_of req) (limit_of req). rewrite Hok. run_async.
      rewrite (proj2 (Z.ltb_lt _ _) Hneg). reflexivity.
    + right. split_and!; [reflexivity|assumption|].
      apply getUserLogs_run; assumption.
  - left. split; [|auto].
    unfold getUserLogs, UserLog.find, UserLog.check. rewrite Hok. reflexivity.
Qed.

(** [deleteUserLog] for any identifier. *)
Lemma deleteUserLog_shape logId w :
  ((∀ r, r ∈ logs w → _id r ≠ logId) ∧
   deleteUserLog logId w =
     (mkResponse 404 (Message false "Log entry not found"),
      record_event (LogsRead (UserLog.by_id logId)) w))
  ∨ ((∃ r, r ∈ logs w ∧ _id r = logId) ∧
     deleteUserLog logId w =
       (mkResponse 200 (Message true "Log entry deleted successfully"),
        set_logs (UserLog.remove_first (UserLog.by_id logId) (logs w))
          (record_event (LogsDelete (UserLog.by_id logId))
             (record_event (LogsRead (UserLog.by_id logId)) w)))).
Proof.
  destruct (filter (λ r, Mongo.matches (UserLog.by_id logId) r) (logs w)) as [|x m] eqn:E.
  - left. assert (∀ r, r ∈ logs w → _id r ≠ logId) as Hno.
    { intros r Hr Hid.
      assert (r ∈ filter (λ r, Mongo.matches (UserLog.by_id logId) r) (logs w)) as Hf.
      { apply list_elem_of_filter. split; [|exact Hr].
        apply Is_true_true, matches_by_id, Hid. }
      rewrite E in Hf. inversion Hf. }
    split; [exact Hno|].
    unfold deleteUserLog, UserLog.findById. run_async.
    cbn [logs record_event]. rewrite E. reflexivity.
  - right. split.
    + exists x. assert (x ∈ filter (λ r, Mongo.matches (UserLog.by_id logId) r) (logs w)) as Hf
        by (rewrite E; left).
      apply list_elem_of_filter in Hf as [Hm Hin]. split; [exact Hin|].
      apply matches_by_id, Is_true_true, Hm.
    + unfold deleteUserLog, UserLog.findById, UserLog.findByIdAndDelete. run_async.
      cbn [logs record_event]. rewrite E. reflexivity.
Qed.

(** [deleteMultipleLogs] for a non-empty array. *)
Lemma deleteMultipleLogs_run ids w :
  ids ≠ [] →
  deleteMultipleLogs (Array ids) w =
    (mkResponse 200
       (Message true
          (deleted_message
             (Z.of_nat (List.length (filter (λ r, _id r ∈ ids) (logs w)))))),
     set_logs (filter (λ r, _id r ∉ ids) (logs w))
       (record_event (LogsDelete [Mongo.Field "_id" (Mongo.In (BOid <$> ids))]) w)).
Proof.
  intros Hne. destruct ids as [|i ids]; [congruence|].
  unfold deleteMultipleLogs, UserLog.deleteMany, UserLog.check. run_async.
  cbn [Mongo.query_ok forallb Mongo.clause_ok Mongo.cond_ok andb].
  cbn [logs record_event]. unfold deleted_message.
  rewrite (list_filter_iff _ (λ r, _id r ∈ i :: ids) (logs w))
    by (intros r; rewrite Is_true_true; apply matches_id_in).
  rewrite (list_filter_iff (λ r, negb (Mongo.matches _ r)) (λ r, _id r ∉ i :: ids) (logs w)).
  - reflexivity.
  - intros r. rewrite <- matches_id_in.
    destruct (Mongo.matches _ r); simpl; split; auto; try discriminate.
Qed.

Lemma getUserLogStats_run period w :
  getUserLogStats period w =
    (mkResponse 200
       (StatsOf (stats_of (recent (clock w (ticks w) - window period) (logs w)))),
     record_event
       (LogsRead [Mongo.Field "createdAt"
                    (Mongo.Range (Some (Mongo.Date (clock w (ticks w) - window period))) None)])
       (tick w)).
Proof.
  unfold getUserLogStats, UserLog.aggregate, UserLog.check. run_async.
  cbn [Mongo.query_ok forallb Mongo.clause_ok Mongo.cond_ok Mongo.bound_ok andb].
  cbn [logs clock ticks tick record_event].
  rewrite window_period, recent_matches.
  destruct (recent (clock w (ticks w) - window period) (logs w)) as [|r l] eqn:E.
  - reflexivity.
  - rewrite group_all_stats by discriminate. reflexivity.
Qed.

End writer_invariants.

(** X3: every record the writer creates carries the snapshot of the
    directory entry found for the request's [userId] (its [_id], [email] as
    [username], and [role]), the request's [action] and [ipAddress], a
    [tokenName] that is the request's or [N/A], and a [userAgent] that is
    the body's, else the header's, else [Unknown]. *)
Theorem createUserLog_snapshot req w m r w' :
  createUserLog req w = (mkResponse 201 (Created m r), w') →
  ∃ uid u,
    CreateReq.userId req = Some uid ∧ users w !! uid = Some u ∧
    userId r = UserDoc._id u ∧ username r = UserDoc.email u ∧ role r = UserDoc.role u ∧
    CreateReq.action req = Some (action r) ∧
    CreateReq.ipAddress req = Some (ipAddress r) ∧
    (∀ t, CreateReq.tokenName req = Some t → t ≠ ""%string → tokenName r = t) ∧
    (JS.truthy (CreateReq.tokenName req) = false → tokenName r = "N/A"%string) ∧
    (∀ a, CreateReq.userAgent req = Some a → a ≠ ""%string → userAgent r = a) ∧
    (JS.truthy (CreateReq.userAgent req) = false →
     ∀ h, CreateReq.header_User_Agent req = Some h → h ≠ ""%string → userAgent r = h) ∧
    (JS.truthy (CreateReq.userAgent req) = false →
     JS.truthy (CreateReq.header_User_Agent req) = false →
     userAgent r = "Unknown"%string) ∧
    _id r = oids w (minted w).
Proof.
  intros Hrun.
  destruct (createUserLog_201 _ _ _ _ _ Hrun)
    as (uid & act & ip & u & d & w2 & Hev & Hw & Hst & Hv & -> & _ & _ & _ & Hm & Ho & _).
  destruct (stamp_times_fields _ _ _ _ _ Hst) as (F1 & F2 & F3 & F4 & F5 & F6 & F7 & _).
  destruct Hev as (Hu & Ha & Hi & _).
  exists uid, u. unfold stored.
  cbn [userId username role action ipAddress tokenName userAgent _id].
  rewrite F1, F2, F3, F4, F5, F6, F7, Hm, Ho. cbn [initial_logData LogData.userId
    LogData.username LogData.role LogData.action LogData.ipAddress LogData.tokenName
    LogData.userAgent].
  split_and!; try assumption; try reflexivity.
  - intros t -> Hne. cbn. destruct (String.eqb_spec t ""); [congruence|reflexivity].
  - unfold JS.or_else, JS.truthy. destruct (CreateReq.tokenName req) as [t|]; [|reflexivity].
    destruct (String.eqb t ""); [reflexivity|discriminate].
  - intros a -> Hne. unfold JS.or_opt.
    rewrite truthy_Some by assumption. cbn.
    destruct (String.eqb_spec a ""); [congruence|reflexivity].
  - intros Hf h -> Hne. unfold JS.or_opt. rewrite Hf. cbn.
    destruct (String.eqb_spec h ""); [congruence|reflexivity].
  - intros Hf Hh. unfold JS.or_opt. rewrite Hf. unfold JS.or_else, JS.truthy in *.
    destruct (CreateReq.header_User_Agent req) as [h|]; [|reflexivity].
    destruct (String.eqb h ""); [reflexivity|discriminate].
Qed.

Lemma createUserLog_snapshot_witness :
  ∃ uid u,
    Some "u1"%string = Some uid ∧ Sample.directory !! uid = Some u ∧
    "u1"%string = UserDoc._id u ∧ "bob@x.io"%string = UserDoc.email u ∧
    "admin"%string = UserDoc.role u ∧
    Some "register"%string = Some "register"%string ∧
    Some "10.0.0.1"%string = Some "10.0.0.1"%string ∧
    (∀ t, None = Some t → t ≠ ""%string → "N/A"%string = t) ∧
    (false = false → "N/A"%string = "N/A"%string) ∧
    (∀ a, None = Some a → a ≠ ""%string → "curl"%string = a) ∧
    (false = false →
     ∀ h, Some "curl"%string = Some h → h ≠ ""%string → "curl"%string = h) ∧
    (false = false → true = false → "curl"%string = "Unknown"%string) ∧
    "0"%string = Sample.oid 0.
Proof.
  apply (createUserLog_snapshot (Sample.event "u1" "register")
           (Sample.world [] Sample.steady_clock) "User log created successfully"
           (mkUserLog "0" "u1" "bob@x.io" "admin" "register" None None "10.0.0.1"
              "N/A" "curl" None 1000 1000)
           (snd (createUserLog (Sample.event "u1" "register")
                   (Sample.world [] Sample.steady_clock)))).
  vm_compute. reflexivity.
Defined.

(** X4: [createUserLog] answers 201, 400, 404 or 500 and never touches the
    user directory; unless it answers 201 the log collection is as before
    and only reads were issued; when it answers 201 exactly one record was
    appended, by the single write of the request. *)
Theorem createUserLog_write_discipline req w :
  users (snd (createUserLog req w)) = users w ∧
  status (fst (createUserLog req w)) ∈ [201; 400; 404; 500] ∧
  (status (fst (createUserLog req w)) ≠ 201 →
   logs (snd (createUserLog req w)) = logs w ∧
   ∃ es, trace (snd (createUserLog req w)) = trace w ++ es ∧
         Forall (λ e, mutating e = false) es) ∧
  (status (fst (createUserLog req w)) = 201 →
   ∃ r es,
     json (fst (createUserLog req w)) = Created "User log created successfully" r ∧
     logs (snd (createUserLog req w)) = logs w ++ [r] ∧
     trace (snd (createUserLog req w)) = trace w ++ es ++ [LogsInsert r] ∧
     Forall (λ e, mutating e = false) es).
Proof.
  destruct (createUserLog_shape req w)
    as [E|[(uid & act & ip & _ & _ & E)|(uid & act & ip & u & d & w2 & Hev & Hw & Hst & E)]];
    rewrite E.
  - cbn. split_and!; [reflexivity|rewrite !elem_of_cons; auto| |discriminate].
    intros _. split; [reflexivity|]. exists []. rewrite app_nil_r. auto.
  - cbn. split_and!; [reflexivity|rewrite !elem_of_cons; auto| |discriminate].
    intros _. split; [reflexivity|]. eexists [_]. split; [reflexivity|repeat constructor].
  - destruct (stamp_times_fields _ _ _ _ _ Hst)
      as (_ & _ & _ & _ & _ & _ & _ & Hl & Hu & _).
    destruct (stamp_times_trace _ _ _ _ _ Hst) as (es & Htr & Hes).
    cbn [logs users trace record_event] in Hl, Hu, Htr.
    destruct (UserLog.validate d) as [|p ps]; cbn.
    + split_and!; [exact Hu|rewrite !elem_of_cons; auto|congruence|].
      intros _. eexists _, (UsersRead [uid] :: es). split; [reflexivity|].
      rewrite Hl, Htr, <- !app_assoc. split_and!; [reflexivity|reflexivity|].
      constructor; [reflexivity|exact Hes].
    + split_and!; [exact Hu|rewrite !elem_of_cons; auto 10| |discriminate].
      intros _. split; [exact Hl|]. exists (UsersRead [uid] :: es).
      rewrite Htr, <- app_assoc. split; [reflexivity|].
      constructor; [reflexivity|exact Hes].
Qed.

(** X5: an event for a user whose directory entry has an empty email or a
    role outside user and admin is refused by the validators whatever the
    action: the answer is 500 and nothing is stored. *)
Theorem createUserLog_invalid_snapshot req w uid act ip u :
  event_of req uid act ip → users w !! uid = Some u →
  UserDoc.email u = ""%string ∨ UserDoc.role u ∉ role_enum →
  ∃ paths w',
    createUserLog req w =
      (mkResponse 500 (Failure "Internal server error" (ValidationError paths)), w') ∧
    ("username"%string ∈ paths ∨ "role"%string ∈ paths) ∧
    logs w' = logs w.
Proof.
  intros Hev Hw Hbad.
  destruct (createUserLog_known req w uid act ip u Hev Hw) as (d & w2 & Hst & Hrun).
  destruct (stamp_times_fields _ _ _ _ _ Hst) as (_ & F2 & F3 & _ & _ & _ & _ & Hl & _).
  cbn [initial_logData LogData.username LogData.role logs record_event] in F2, F3, Hl.
  assert ("username"%string ∈ UserLog.validate d ∨ "role"%string ∈ UserLog.validate d) as Hin.
  { unfold UserLog.validate. rewrite F2, F3. destruct Hbad as [-> | Hr].
    - left. cbn. left.
    - right. destruct (UserLog.in_enum role_enum (UserDoc.role u)) eqn:E.
      + apply in_enum_elem in E. contradiction.
      + rewrite !elem_of_app. right. left. left. }
  rewrite Hrun. destruct (UserLog.validate d) as [|p ps] eqn:E.
  - destruct Hin as [Hin|Hin]; inversion Hin.
  - eexists _, _. split; [reflexivity|]. split; [exact Hin|exact Hl].
Qed.

Lemma createUserLog_invalid_snapshot_witness :
  ∃ paths w',
    createUserLog (Sample.event "u1" "login")
      (mkWorld {[ "u1"%string := UserDoc.mk "u1" "Bob Stone" "bob@x.io" "owner" ]} []
         Sample.steady_clock 0 Sample.oid 0 []) =
      (mkResponse 500 (Failure "Internal server error" (ValidationError paths)), w') ∧
    ("username"%string ∈ paths ∨ "role"%string ∈ paths) ∧
    logs w' = [].
Proof.
  apply (createUserLog_invalid_snapshot (Sample.event "u1" "login")
           (mkWorld {[ "u1"%string := UserDoc.mk "u1" "Bob Stone" "bob@x.io" "owner" ]} []
              Sample.steady_clock 0 Sample.oid 0 [])
           "u1" "login" "10.0.0.1" (UserDoc.mk "u1" "Bob Stone" "bob@x.io" "owner")).
  - repeat split; discriminate.
  - reflexivity.
  - right. apply (bool_decide_unpack _). vm_compute. exact I.
Defined.

Section collection_invariants.

Lemma remove_first_sublist q (l : list UserLogDoc) :
  UserLog.remove_first q l `sublist_of` l.
Proof.
  induction l as [|x l IH]; [constructor|]. cbn [UserLog.remove_first].
  destruct (Mongo.matches q x); [constructor; reflexivity|constructor; exact IH].
Qed.

Lemma sublist_ids (l k : list UserLogDoc) :
  l `sublist_of` k → NoDup (_id <$> k) → NoDup (_id <$> l).
Proof.
  intros Hs Hk. eapply sublist_NoDup; [exact Hk|]. apply fmap_sublist, Hs.
Qed.

Lemma sublist_all (P : UserLogDoc → Prop) (l k : list UserLogDoc) :
  l `sublist_of` k → (∀ x, x ∈ k → P x) → ∀ x, x ∈ l → P x.
Proof. intros Hs Hk x Hx. apply Hk. eapply elem_of_sublist; eassumption. Qed.

(** What each handler can do to the collection and to the generator. *)
Lemma createUserLog_collection req w :
  oids (snd (createUserLog req w)) = oids w ∧
  ((logs (snd (createUserLog req w)) = logs w ∧
    (minted w ≤ minted (snd (createUserLog req w)))%nat)
   ∨ (∃ r, logs (snd (createUserLog req w)) = logs w ++ [r] ∧
           _id r = oids w (minted w) ∧
           minted (snd (createUserLog req w)) = S (minted w) ∧
           (Forall well_formed (logs w) → well_formed r))).
Proof.
  destruct (createUserLog_shape req w)
    as [E|[(uid & act & ip & _ & _ & E)|(uid & act & ip & u & d & w2 & Hev & Hw & Hst & E)]];
    rewrite E.
  - cbn. split; [reflexivity|]. left. split; [reflexivity|lia].
  - cbn. split; [reflexivity|]. left. split; [reflexivity|lia].
  - destruct (stamp_times_fields _ _ _ _ _ Hst)
      as (_ & _ & _ & _ & _ & _ & _ & Hl & _ & Hm & Ho & _).
    cbn [logs minted oids record_event] in Hl, Hm, Ho.
    destruct (UserLog.validate d) as [|p ps] eqn:Ev; cbn.
    + split; [exact Ho|]. right. eexists. rewrite Hl, Hm, Ho.
      split_and!; [reflexivity..|].
      intros _. destruct Hev as (_ & _ & _ & _ & Hact & _).
      eapply well_formed_stored; eassumption.
    + split; [exact Ho|]. left. split; [exact Hl|]. rewrite Hm. lia.
Qed.

Lemma getUserLogs_collection req w :
  logs (snd (getUserLogs req w)) = logs w ∧
  users (snd (getUserLogs req w)) = users w ∧
  minted (snd (getUserLogs req w)) = minted w ∧
  oids (snd (getUserLogs req w)) = oids w.
Proof.
  destruct (getUserLogs_shape req w) as [[E _]|(_ & _ & E)]; rewrite E;
    split_and!; reflexivity.
Qed.

Lemma deleteUserLog_collection logId w :
  logs (snd (deleteUserLog logId w)) `sublist_of` logs w ∧
  minted (snd (deleteUserLog logId w)) = minted w ∧
  oids (snd (deleteUserLog logId w)) = oids w.
Proof.
  destruct (deleteUserLog_shape logId w) as [[_ E]|[_ E]]; rewrite E; cbn;
    split_and!; try reflexivity. apply remove_first_sublist.
Qed.

Lemma deleteMultipleLogs_collection logIds w :
  logs (snd (deleteMultipleLogs logIds w)) `sublist_of` logs w ∧
  minted (snd (deleteMultipleLogs logIds w)) = minted w ∧
  oids (snd (deleteMultipleLogs logIds w)) = oids w.
Proof.
  destruct logIds as [|[|i ids]]; try (cbn; split_and!; reflexivity).
  rewrite deleteMultipleLogs_run by discriminate. cbn.
  split_and!; try reflexivity. apply sublist_filter.
Qed.

End collection_invariants.

(** X6: every handler keeps the stored records well formed: required
    strings present, role and action inside their enumerations, token name
    and user agent not empty, and the three times in agreement with the
    action. *)
Theorem handlers_keep_well_formed w :
  Forall well_formed (logs w) →
  (∀ req, Forall well_formed (logs (snd (createUserLog req w)))) ∧
  (∀ req, Forall well_formed (logs (snd (getUserLogs req w)))) ∧
  (∀ logId, Forall well_formed (logs (snd (deleteUserLog logId w)))) ∧
  (∀ logIds, Forall well_formed (logs (snd (deleteMultipleLogs logIds w)))) ∧
  (∀ period, Forall well_formed (logs (snd (getUserLogStats period w)))).
Proof.
  intros Hall. split_and!.
  - intros req. destruct (createUserLog_collection req w) as [_ [[-> _]|(r & -> & _ & _ & Hr)]].
    + exact Hall.
    + apply Forall_app. split; [exact Hall|]. constructor; [auto|constructor].
  - intros req. destruct (getUserLogs_collection req w) as [-> _]. exact Hall.
  - intros logId. destruct (deleteUserLog_collection logId w) as [Hs _].
    rewrite Forall_forall in *. eapply sublist_all; eassumption.
  - intros logIds. destruct (deleteMultipleLogs_collection logIds w) as [Hs _].
    rewrite Forall_forall in *. eapply sublist_all; eassumption.
  - intros period. rewrite getUserLogStats_run. exact Hall.
Qed.

Lemma handlers_keep_well_formed_witness :
  (∀ req, Forall well_formed
            (logs (snd (createUserLog req
                          (Sample.world [Sample.old_login] Sample.steady_clock))))) ∧
  (∀ req, Forall well_formed
            (logs (snd (getUserLogs req
                          (Sample.world [Sample.old_login] Sample.steady_clock))))) ∧
  (∀ logId, Forall well_formed
              (logs (snd (deleteUserLog logId
                            (Sample.world [Sample.old_login] Sample.steady_clock))))) ∧
  (∀ logIds, Forall well_formed
               (logs (snd (deleteMultipleLogs logIds
                             (Sample.world [Sample.old_login] Sample.steady_clock))))) ∧
  (∀ period, Forall well_formed
               (logs (snd (getUserLogStats period
                             (Sample.world [Sample.old_login] Sample.steady_clock))))).
Proof.
  apply (handlers_keep_well_formed (Sample.world [Sample.old_login] Sample.steady_clock)).
  constructor; [|constructor]. unfold well_formed. cbn.
  split_and!; try discriminate; try reflexivity.
  - apply (bool_decide_unpack _). vm_compute. exact I.
  - apply (bool_decide_unpack _). vm_compute. exact I.
  - split; [reflexivity|eauto].
  - split; [intros [? [=]]|discriminate].
  - intros [? [=]].
Defined.

(** X7: every handler keeps the identifiers of the collection distinct,
    provided the generator of identifiers never repeats itself: a created
    record takes the next identifier of the generator, and nothing else
    adds a record. *)
Theorem handlers_keep_ids_distinct w :
  ids_minted w →
  (∀ req, ids_minted (snd (createUserLog req w))) ∧
  (∀ req, ids_minted (snd (getUserLogs req w))) ∧
  (∀ logId, ids_minted (snd (deleteUserLog logId w))) ∧
  (∀ logIds, ids_minted (snd (deleteMultipleLogs logIds w))) ∧
  (∀ period, ids_minted (snd (getUserLogStats period w))).
Proof.
  intros (Hnd & Hk & Hinj). split_and!.
  - intros req. unfold ids_minted.
    destruct (createUserLog_collection req w)
      as [Ho [[Hl Hm]|(r & Hl & Hid & Hm & _)]]; rewrite Ho, Hl.
    + split_and!; [exact Hnd| |exact Hinj].
      intros x Hx. destruct (Hk x Hx) as (k & Hlt & E). exists k. split; [lia|exact E].
    + rewrite Hm. split_and!; [| |exact Hinj].
      * rewrite fmap_app. apply NoDup_app. split_and!; [exact Hnd| |apply NoDup_singleton].
        intros i (x & -> & Hx)%list_elem_of_fmap Hi.
        apply list_elem_of_singleton in Hi.
        destruct (Hk x Hx) as (k & Hlt & E). rewrite E, Hid in Hi.
        apply Hinj in Hi. lia.
      * intros x [Hx| ->%list_elem_of_singleton]%elem_of_app.
        -- destruct (Hk x Hx) as (k & Hlt & E). exists k. split; [lia|exact E].
        -- exists (minted w). split; [lia|exact Hid].
  - intros req. unfold ids_minted.
    destruct (getUserLogs_collection req w) as (-> & _ & -> & ->). auto.
  - intros logId. unfold ids_minted.
    destruct (deleteUserLog_collection logId w) as (Hs & -> & ->).
    split_and!; [eapply sublist_ids; eassumption| |exact Hinj].
    apply (sublist_all _ _ _ Hs Hk).
  - intros logIds. unfold ids_minted.
    destruct (deleteMultipleLogs_collection logIds w) as (Hs & -> & ->).
    split_and!; [eapply sublist_ids; eassumption| |exact Hinj].
    apply (sublist_all _ _ _ Hs Hk).
  - intros period. rewrite getUserLogStats_run. unfold ids_minted. cbn. auto.
Qed.

Lemma handlers_keep_ids_distinct_witness :
  (∀ req, ids_minted
            (snd (createUserLog req
                    (snd (createUserLog (Sample.event "u1" "login")
                            (Sample.world [] Sample.steady_clock)))))) ∧
  (∀ req, ids_minted
            (snd (getUserLogs req
                    (snd (createUserLog (Sample.event "u1" "login")
                            (Sample.world [] Sample.steady_clock)))))) ∧
  (∀ logId, ids_minted
              (snd (deleteUserLog logId
                      (snd (createUserLog (Sample.event "u1" "login")
                              (Sample.world [] Sample.steady_clock)))))) ∧
  (∀ logIds, ids_minted
               (snd (deleteMultipleLogs logIds
                       (snd (createUserLog (Sample.event "u1" "login")
                               (Sample.world [] Sample.steady_clock)))))) ∧
  (∀ period, ids_minted
               (snd (getUserLogStats period
                       (snd (createUserLog (Sample.event "u1" "login")
                               (Sample.world [] Sample.steady_clock)))))).
Proof.
  apply (handlers_keep_ids_distinct
           (snd (createUserLog (Sample.event "u1" "login")
                   (Sample.world [] Sample.steady_clock)))).
  split_and!.
  - vm_compute. apply NoDup_singleton.
  - intros x Hx. exists 0%nat. split; [vm_compute; lia|].
    vm_compute in Hx. apply list_elem_of_singleton in Hx. subst x. reflexivity.
  - intros i j E. cbn in E. apply (inj pretty), E.
Defined.

Section compositions.

Lemma createUserLog_login_run req w uid ip u :
  event_of req uid "login" ip → users w !! uid = Some u → snapshot_ok u →
  createUserLog req w =
    (mkResponse 201
       (Created "User log created successfully"
          (stored (oids w (minted w))
             (LogData.set_loginTime (initial_logData req u "login" ip) (clock w (ticks w)))
             (clock w (S (ticks w))))),
     set_logs
       (logs w ++
        [stored (oids w (minted w))
           (LogData.set_loginTime (initial_logData req u "login" ip) (clock w (ticks w)))
           (clock w (S (ticks w)))])
       (record_event
          (LogsInsert
             (stored (oids w (minted w))
                (LogData.set_loginTime (initial_logData req u "login" ip)
                   (clock w (ticks w)))
                (clock w (S (ticks w)))))
          (tick (mint (tick (record_event (UsersRead [uid]) w)))))).
Proof.
  intros Hev Hw [He Hr].
  pose proof Hev as (_ & _ & _ & _ & _ & Hip).
  rewrite (createUserLog_found _ _ _ _ _ Hev), Hw, stamp_login.
  rewrite save_ok by (apply validate_ok; [exact He|exact Hr|apply login_in_enum|exact Hip]).
  reflexivity.
Qed.

Lemma remove_first_last q (l : list UserLogDoc) r :
  (∀ x, x ∈ l → Mongo.matches q x = false) → Mongo.matches q r = true →
  UserLog.remove_first q (l ++ [r]) = l.
Proof.
  intros Hl Hr. induction l as [|a l IH]; cbn.
  - rewrite Hr. reflexivity.
  - rewrite (Hl a) by left. f_equal. apply IH. intros x Hx. apply Hl. right. exact Hx.
Qed.

Lemma matches_nil r : Mongo.matches [] r = true.
Proof. reflexivity. Qed.

Lemma matching_list_all w : matching list_all w = logs w.
Proof.
  unfold matching. change (build_filter list_all) with (@nil Mongo.clause).
  induction (logs w) as [|a l IH]; [reflexivity|].
  rewrite filter_cons. destruct (decide (Mongo.matches [] a)) as [_|H].
  - f_equal. exact IH.
  - destruct H. reflexivity.
Qed.

(** A login later than every login of the user in the collection is the
    one the linkage finds once it has been appended. *)
Lemma newest_login_found uid (l : list UserLogDoc) r1 t1 :
  login_of uid t1 r1 → (∀ x t, x ∈ l → login_of uid t x → t ≤ t1) →
  last_login uid (l ++ [r1]) ≫= loginTime = Some t1.
Proof.
  intros Hl1 Hle.
  assert (r1 ∈ l ++ [r1]) as Hr1 by (apply elem_of_app; right; left).
  destruct (last_login_max _ _ _ _ Hr1 Hl1) as (x & t & Hlast & Hx & Hlt & Hmax).
  rewrite Hlast. cbn. destruct Hlt as (Hu & Ha & Ht). rewrite Ht. f_equal.
  pose proof (Hmax r1 _ Hr1 Hl1) as Hge.
  apply elem_of_app in Hx as [Hx|Hx].
  - pose proof (Hle x t Hx (conj Hu (conj Ha Ht))). lia.
  - apply list_elem_of_singleton in Hx. subst x. destruct Hl1 as (_ & _ & Ht1). congruence.
Qed.

End compositions.

(** X8: a login and then a logout of the same user, both recorded by the
    writer: when no login of that user in the collection is later than the
    new one, the logout is linked to it, and its duration is the clock's
    fourth read minus its first, the second and third reads being the
    login's creation time and the logout time. *)
Theorem login_then_logout req_in req_out w uid ip ip' u :
  event_of req_in uid "login" ip → event_of req_out uid "logout" ip' →
  users w !! uid = Some u → snapshot_ok u →
  (∀ l t, l ∈ logs w → login_of (UserDoc._id u) t l → t ≤ clock w (ticks w)) →
  ∃ r1 w1 r2 w2,
    createUserLog req_in w =
      (mkResponse 201 (Created "User log created successfully" r1), w1) ∧
    createUserLog req_out w1 =
      (mkResponse 201 (Created "User log created successfully" r2), w2) ∧
    logs w2 = logs w ++ [r1; r2] ∧
    loginTime r1 = Some (clock w (ticks w)) ∧
    logoutTime r2 = Some (clock w (2 + ticks w)) ∧
    sessionDuration r2 = Some (clock w (3 + ticks w) - clock w (ticks w)).
Proof.
  intros Hin Hout Hw Hs Hle.
  rewrite (createUserLog_login_run _ _ _ _ _ Hin Hw Hs).
  set (r1 := stored (oids w (minted w))
               (LogData.set_loginTime (initial_logData req_in u "login" ip)
                  (clock w (ticks w))) (clock w (S (ticks w)))).
  set (w1 := set_logs (logs w ++ [r1]) _).
  destruct (createUserLog_logout req_out w1 uid ip' u Hout Hw Hs)
    as (r2 & w2 & Hrun & Hlogs & _ & _ & _ & Hlo & Hd).
  exists r1, w1, r2, w2. split; [reflexivity|]. split; [exact Hrun|].
  change (logs w1) with (logs w ++ [r1]) in Hd, Hlogs.
  rewrite (newest_login_found _ _ r1 (clock w (ticks w))) in Hd
    by (first [split_and!; reflexivity|exact Hle]).
  split_and!.
  - rewrite Hlogs, <- app_assoc. reflexivity.
  - reflexivity.
  - exact Hlo.
  - exact Hd.
Qed.

Lemma login_then_logout_witness :
  ∃ r1 w1 r2 w2,
    createUserLog (Sample.event "u1" "login")
      (Sample.world [Sample.old_login] Sample.steady_clock) =
      (mkResponse 201 (Created "User log created successfully" r1), w1) ∧
    createUserLog (Sample.event "u1" "logout") w1 =
      (mkResponse 201 (Created "User log created successfully" r2), w2) ∧
    logs w2 = [Sample.old_login] ++ [r1; r2] ∧
    loginTime r1 = Some 1000 ∧
    logoutTime r2 = Some 1020 ∧
    sessionDuration r2 = Some (1030 - 1000).
Proof.
  apply (login_then_logout (Sample.event "u1" "login") (Sample.event "u1" "logout")
           (Sample.world [Sample.old_login] Sample.steady_clock)
           "u1" "10.0.0.1" "10.0.0.1" Sample.bob).
  - repeat split; discriminate.
  - repeat split; discriminate.
  - reflexivity.
  - split; [discriminate|]. vm_compute. right. left.
  - intros l t Hl (_ & _ & Ht). vm_compute in Hl.
    apply list_elem_of_singleton in Hl. subst l. injection Ht as <-. vm_compute. discriminate.
Defined.

(** X9: creating a record and then deleting it by the identifier the
    response carries gives the collection back as it was, provided the
    identifier the generator handed out was not already in use. *)
Theorem create_then_delete req w m r w1 :
  createUserLog req w = (mkResponse 201 (Created m r), w1) →
  (∀ x, x ∈ logs w → _id x ≠ oids w (minted w)) →
  ∃ w2,
    deleteUserLog (_id r) w1 =
      (mkResponse 200 (Message true "Log entry deleted successfully"), w2) ∧
    logs w2 = logs w.
Proof.
  intros Hrun Hfresh.
  destruct (createUserLog_201 _ _ _ _ _ Hrun)
    as (uid & act & ip & u & d & w2 & _ & _ & _ & _ & Hr & Hw1 & Hl & _ & Hm & Ho & _).
  assert (_id r = oids w (minted w)) as Hid by (rewrite Hr, Hm, Ho; reflexivity).
  assert (logs w1 = logs w ++ [r]) as Hlogs by (rewrite Hw1, Hl; reflexivity).
  destruct (deleteUserLog_shape (_id r) w1) as [[Hno _]|[_ E]].
  - destruct (Hno r); [|reflexivity]. rewrite Hlogs. apply elem_of_app. right. left.
  - rewrite E. eexists. split; [reflexivity|]. cbn [logs set_logs]. rewrite Hlogs.
    apply remove_first_last.
    + intros x Hx. destruct (Mongo.matches (UserLog.by_id (_id r)) x) eqn:Em; [|reflexivity].
      apply matches_by_id in Em. rewrite Hid in Em. destruct (Hfresh x Hx Em).
    + apply matches_by_id. reflexivity.
Qed.

Lemma create_then_delete_witness :
  ∃ w2,
    deleteUserLog "0"
      (snd (createUserLog (Sample.event "u1" "login")
              (Sample.world [Sample.old_login] Sample.steady_clock))) =
      (mkResponse 200 (Message true "Log entry deleted successfully"), w2) ∧
    logs w2 = [Sample.old_login].
Proof.
  apply (create_then_delete (Sample.event "u1" "login")
           (Sample.world [Sample.old_login] Sample.steady_clock)
           "User log created successfully"
           (mkUserLog "0" "u1" "bob@x.io" "admin" "login" (Some 1000) None "10.0.0.1"
              "N/A" "curl" None 1010 1010)).
  - vm_compute. reflexivity.
  - intros x Hx. vm_compute in Hx. apply list_elem_of_singleton in Hx. subst x.
    vm_compute. discriminate.
Defined.

(** X10: a record the writer has just created is on the first page of the
    unfiltered listing, and the total has grown by one, as long as the
    collection held fewer than 50 records. *)
Theorem create_then_list req w m r w1 :
  createUserLog req w = (mkResponse 201 (Created m r), w1) →
  (List.length (logs w) < 50)%nat →
  ∃ data pg w2,
    getUserLogs list_all w1 = (mkResponse 200 (Page data pg), w2) ∧
    r ∈ doc <$> data ∧
    List.length data = S (List.length (logs w)) ∧
    totalItems pg = Z.of_nat (List.length (logs w)) + 1.
Proof.
  intros Hrun Hlen.
  destruct (createUserLog_201 _ _ _ _ _ Hrun)
    as (uid & act & ip & u & d & w2 & _ & _ & _ & _ & _ & Hw1 & Hl & _).
  assert (logs w1 = logs w ++ [r]) as Hlogs by (rewrite Hw1, Hl; reflexivity).
  rewrite (getUserLogs_run list_all w1) by (reflexivity || (vm_compute; discriminate)).
  eexists _, _, _. split; [reflexivity|].
  assert (page_docs list_all w1 = in_order list_all w1) as Hpage.
  { unfold page_docs. change (limit_of list_all) with 50. change (page_of list_all) with 1.
    change (Z.to_nat ((1 - 1) * 50)) with 0%nat. rewrite drop_0.
    unfold Mongo.limit_docs. change (50 =? 0) with false. cbv iota.
    apply take_ge. rewrite (Permutation_length (in_order_perm list_all w1)).
    rewrite matching_list_all, Hlogs, length_app. cbn. lia. }
  rewrite <- list_fmap_compose, Hpage, length_fmap.
  rewrite (Permutation_length (in_order_perm list_all w1)), matching_list_all, Hlogs.
  split_and!.
  - rewrite list_fmap_id, in_order_perm, matching_list_all, Hlogs.
    apply elem_of_app. right. left.
  - rewrite length_app. cbn. lia.
  - cbn [totalItems]. rewrite length_app. cbn. lia.
Qed.

Lemma create_then_list_witness :
  ∃ data pg w2,
    getUserLogs list_all
      (snd (createUserLog (Sample.event "u1" "login")
              (Sample.world [Sample.old_login] Sample.steady_clock))) =
      (mkResponse 200 (Page data pg), w2) ∧
    mkUserLog "0" "u1" "bob@x.io" "admin" "login" (Some 1000) None "10.0.0.1"
      "N/A" "curl" None 1010 1010 ∈ doc <$> data ∧
    List.length data = 2%nat ∧
    totalItems pg = Z.of_nat 1 + 1.
Proof.
  apply (create_then_list (Sample.event "u1" "login")
           (Sample.world [Sample.old_login] Sample.steady_clock)
           "User log created successfully").
  - vm_compute. reflexivity.
  - vm_compute. lia.
Defined.

Section reader_edges.

Lemma date_clause_invalid gte lte :
  gte = Some Mongo.InvalidDate ∨ lte = Some Mongo.InvalidDate →
  Mongo.query_ok (date_clause gte lte) = false.
Proof.
  intros [-> | ->].
  - destruct lte; reflexivity.
  - destruct gte as [[|]|]; reflexivity.
Qed.

Lemma query_ok_app_false q1 q2 :
  Mongo.query_ok q2 = false → Mongo.query_ok (q1 ++ q2) = false.
Proof.
  intros H. unfold Mongo.query_ok in *. rewrite forallb_app, H. apply andb_false_r.
Qed.

Lemma build_filter_invalid_date req :
  ListReq.startDate req = Some Mongo.InvalidDate ∨
  ListReq.endDate req = Some Mongo.InvalidDate →
  Mongo.query_ok (build_filter req) = false.
Proof.
  intros H. unfold build_filter.
  do 3 apply query_ok_app_false. apply date_clause_invalid, H.
Qed.

Lemma strongly_sorted_lookup {A} (R : relation A) (l : list A) :
  StronglySorted R l →
  ∀ i j x y, (i < j)%nat → l !! i = Some x → l !! j = Some y → R x y.
Proof.
  induction 1 as [|a l Hl IH Hall]; intros i j x y Hij Hi Hj.
  - rewrite lookup_nil in Hi. discriminate.
  - destruct j as [|j]; [lia|]. cbn in Hj. destruct i as [|i]; cbn in Hi.
    + injection Hi as <-. rewrite Forall_forall in Hall.
      apply Hall. eapply list_elem_of_lookup_2, Hj.
    + apply (IH i j); [lia|assumption..].
Qed.

Lemma in_order_strongly_sorted req w :
  StronglySorted
    (Mongo.sort_rel (default "createdAt"%string (ListReq.sortBy req)) (direction_of req))
    (in_order req w).
Proof. apply StronglySorted_merge_sort; apply _. Qed.

Lemma page_docs_lookup req w i x :
  page_docs req w !! i = Some x →
  in_order req w !! (Z.to_nat ((page_of req - 1) * limit_of req) + i)%nat = Some x.
Proof.
  unfold page_docs, Mongo.limit_docs. destruct (limit_of req =? 0).
  - rewrite lookup_drop. auto.
  - intros H. apply lookup_take_Some in H as [H _]. rewrite lookup_drop in H. exact H.
Qed.


End reader_edges.

(** X11: [getUserLogs] only reads: whatever the request, the log
    collection and the user directory are as before, no write was issued,
    and the answer is 200 or 500. *)
Theorem getUserLogs_read_only req w :
  logs (snd (getUserLogs req w)) = logs w ∧
  users (snd (getUserLogs req w)) = users w ∧
  status (fst (getUserLogs req w)) ∈ [200; 500] ∧
  ∃ es, trace (snd (getUserLogs req w)) = trace w ++ es ∧
        Forall (λ e, mutating e = false) es.
Proof.
  destruct (getUserLogs_shape req w) as [[E _]|(_ & _ & E)]; rewrite E; cbn.
  - split_and!; [reflexivity|reflexivity|rewrite !elem_of_cons; auto|].
    eexists [_]. split; [reflexivity|repeat constructor].
  - split_and!; [reflexivity|reflexivity|rewrite !elem_of_cons; auto|].
    eexists [_; _; _]. rewrite <- !app_assoc. split; [reflexivity|repeat constructor].
Qed.

(** X12: a request whose offset [(page - 1) * limit] is negative, as for
    page 0, or whose start or end date does not parse, is answered 500
    after a single refused read; no record is returned. *)
Theorem getUserLogs_rejected req w :
  (page_of req - 1) * limit_of req < 0 ∨
  ListReq.startDate req = Some Mongo.InvalidDate ∨
  ListReq.endDate req = Some Mongo.InvalidDate →
  getUserLogs req w =
    (mkResponse 500 (Failure "Internal server error" QueryRejected),
     record_event (LogsRead (build_filter req)) w).
Proof.
  intros H. destruct (getUserLogs_shape req w) as [[E _]|(Hok & Hskip & _)];
    [exact E|].
  destruct H as [H|H]; [lia|].
  rewrite (build_filter_invalid_date req H) in Hok. discriminate.
Qed.

Lemma getUserLogs_rejected_witness :
  getUserLogs (ListReq.mk (Some 0) None None None None None None None None)
    (Sample.world [Sample.old_login] Sample.steady_clock) =
    (mkResponse 500 (Failure "Internal server error" QueryRejected),
     record_event (LogsRead [])
       (Sample.world [Sample.old_login] Sample.steady_clock)).
Proof.
  apply (getUserLogs_rejected (ListReq.mk (Some 0) None None None None None None None None)).
  left. vm_compute. reflexivity.
Defined.



(** X14: the records of a page come in the order of the sort key:
    descending when [sortOrder] is missing or is [desc], ascending for any
    other value; with neither [sortBy] nor [sortOrder] the newest record
    comes first. *)
Theorem getUserLogs_sort_order req w data pg w' i j x y :
  getUserLogs req w = (mkResponse 200 (Page data pg), w') →
  (i < j)%nat → data !! i = Some x → data !! j = Some y →
  (ListReq.sortOrder req = None ∨ ListReq.sortOrder req = Some "desc"%string →
   bson_leb (Mongo.sort_key (default "createdAt"%string (ListReq.sortBy req)) (doc y))
            (Mongo.sort_key (default "createdAt"%string (ListReq.sortBy req)) (doc x))
     = true) ∧
  (∀ s, ListReq.sortOrder req = Some s → s ≠ "desc"%string →
   bson_leb (Mongo.sort_key (default "createdAt"%string (ListReq.sortBy req)) (doc x))
            (Mongo.sort_key (default "createdAt"%string (ListReq.sortBy req)) (doc y))
     = true) ∧
  (ListReq.sortBy req = None → ListReq.sortOrder req = None →
   createdAt (doc y) ≤ createdAt (doc x)).
Proof.
  intros Hrun Hij Hi Hj.
  destruct (getUserLogs_shape req w) as [[E _]|(_ & _ & E)];
    rewrite E in Hrun; [discriminate|].
  injection Hrun as <- _ _.
  rewrite list_lookup_fmap in Hi, Hj.
  destruct (page_docs req w !! i) as [a|] eqn:Ea; [|discriminate].
  destruct (page_docs req w !! j) as [b|] eqn:Eb; [|discriminate].
  injection Hi as <-. injection Hj as <-. cbn [doc populated].
  apply page_docs_lookup in Ea, Eb.
  assert (Z.to_nat ((page_of req - 1) * limit_of req) + i <
          Z.to_nat ((page_of req - 1) * limit_of req) + j)%nat as Hlt by lia.
  pose proof (strongly_sorted_lookup _ _ (in_order_strongly_sorted req w)
                _ _ a b Hlt Ea Eb) as Hrel.
  unfold Mongo.sort_rel, direction_of in Hrel.
  assert (∀ s, ListReq.sortOrder req = Some s → s ≠ "desc"%string →
            bson_leb
              (Mongo.sort_key (default "createdAt"%string (ListReq.sortBy req)) a)
              (Mongo.sort_key (default "createdAt"%string (ListReq.sortBy req)) b) = true)
    as Hasc.
  { intros s Hs Hne. rewrite Hs in Hrel. cbn [default from_option id] in Hrel.
    destruct (String.eqb_spec s "desc"); [congruence|].
    apply Is_true_true, Hrel. }
  assert (ListReq.sortOrder req = None ∨ ListReq.sortOrder req = Some "desc"%string →
            bson_leb
              (Mongo.sort_key (default "createdAt"%string (ListReq.sortBy req)) b)
              (Mongo.sort_key (default "createdAt"%string (ListReq.sortBy req)) a) = true)
    as Hdesc.
  { intros [Hs|Hs]; rewrite Hs in Hrel; apply Is_true_true, Hrel. }
  split_and!; [exact Hdesc|exact Hasc|].
  intros Hby Hord. specialize (Hdesc (or_introl Hord)). rewrite Hby in Hdesc.
  apply Z.leb_le, Hdesc.
Qed.

Lemma getUserLogs_sort_order_witness :
  (ListReq.sortOrder list_all = None ∨ ListReq.sortOrder list_all = Some "desc"%string →
   bson_leb (Mongo.sort_key "createdAt" Sample.older_login)
            (Mongo.sort_key "createdAt" Sample.old_login) = true) ∧
  (∀ s, ListReq.sortOrder list_all = Some s → s ≠ "desc"%string →
   bson_leb (Mongo.sort_key "createdAt" Sample.old_login)
            (Mongo.sort_key "createdAt" Sample.older_login) = true) ∧
  (ListReq.sortBy list_all = None → ListReq.sortOrder list_all = None →
   createdAt Sample.older_login ≤ createdAt Sample.old_login).
Proof.
  apply (getUserLogs_sort_order list_all
           (Sample.world [Sample.older_login; Sample.old_login] Sample.steady_clock)
           [populated (Sample.world [] Sample.steady_clock) Sample.old_login;
            populated (Sample.world [] Sample.steady_clock) Sample.older_login]
           (mkPagination 1 (Some 1) 2 50)
           (snd (getUserLogs list_all
                   (Sample.world [Sample.older_login; Sample.old_login] Sample.steady_clock)))
           0%nat 1%nat
           (populated (Sample.world [] Sample.steady_clock) Sample.old_login)
           (populated (Sample.world [] Sample.steady_clock) Sample.older_login)).
  - vm_compute. reflexivity.
  - lia.
  - reflexivity.
  - reflexivity.
Defined.



Section deletion_laws.

Lemma filter_all {A} (P : A → Prop) `{∀ x, Decision (P x)} (l : list A) :
  (∀ x, x ∈ l → P x) → filter P l = l.
Proof.
  induction l as [|a l IH]; intros Hall; [reflexivity|].
  rewrite filter_cons_True by (apply Hall; left).
  f_equal. apply IH. intros x Hx. apply Hall. right. exact Hx.
Qed.


(** Under distinct identifiers, removing the first record of an
    identifier removes every record of it. *)
Lemma remove_first_by_id logId (l : list UserLogDoc) :
  NoDup (_id <$> l) →
  UserLog.remove_first (UserLog.by_id logId) l = filter (λ r, _id r ≠ logId) l.
Proof.
  induction l as [|a l IH]; intros Hnd; [reflexivity|].
  rewrite fmap_cons in Hnd. apply NoDup_cons in Hnd as [Ha Hnd].
  cbn [UserLog.remove_first]. rewrite filter_cons.
  destruct (Mongo.matches (UserLog.by_id logId) a) eqn:Em.
  - apply matches_by_id in Em. destruct (decide (_id a ≠ logId)) as [Hne|_]; [congruence|].
    symmetry. apply filter_all. intros r Hr Hid.
    apply Ha. rewrite Em, <- Hid. apply list_elem_of_fmap. eauto.
  - destruct (decide (_id a ≠ logId)) as [_|Heq].
    + f_equal. apply IH, Hnd.
    + apply dec_stable in Heq. apply matches_by_id in Heq. congruence.
Qed.

Lemma deleteUserLog_logs logId w :
  NoDup (_id <$> logs w) →
  logs (snd (deleteUserLog logId w)) = filter (λ r, _id r ≠ logId) (logs w).
Proof.
  intros Hnd. destruct (deleteUserLog_shape logId w) as [[Hno E]|[_ E]]; rewrite E; cbn.
  - symmetry. apply filter_all. exact Hno.
  - apply remove_first_by_id, Hnd.
Qed.



Lemma filter_sublist_mono (P Q : UserLogDoc → Prop)
  `{∀ x, Decision (P x)} `{∀ x, Decision (Q x)} (l : list UserLogDoc) :
  (∀ x, P x → Q x) → filter P l `sublist_of` filter Q l.
Proof.
  intros HPQ. induction l as [|a l IH]; [constructor|].
  rewrite !filter_cons. destruct (decide (P a)) as [HP|HP].
  - destruct (decide (Q a)) as [_|HQ]; [|destruct (HQ (HPQ _ HP))].
    constructor. exact IH.
  - destruct (decide (Q a)); [constructor|]; exact IH.
Qed.

Lemma count_action_sublist a (l k : list UserLogDoc) :
  l `sublist_of` k → count_action a l ≤ count_action a k.
Proof.
  intros Hs. unfold count_action. apply inj_le, sublist_length.
  induction Hs as [|x l1 l2 _ IH|x l1 l2 _ IH]; [constructor|..].
  - rewrite !filter_cons. destruct (decide (action x = a)); [constructor|]; exact IH.
  - rewrite filter_cons. destruct (decide (action x = a)); [constructor|]; exact IH.
Qed.

Lemma distinct_users_sublist (l k : list UserLogDoc) :
  l `sublist_of` k → distinct_users l ≤ distinct_users k.
Proof.
  intros Hs. unfold distinct_users. apply inj_le, subseteq_size.
  intros u. rewrite !elem_of_list_to_set, !list_elem_of_fmap.
  intros (r & -> & Hr). exists r. split; [reflexivity|].
  eapply elem_of_sublist; [exact Hr|exact Hs].
Qed.

Lemma distinct_users_le (l : list UserLogDoc) : distinct_users l ≤ Z.of_nat (List.length l).
Proof.
  unfold distinct_users. apply inj_le.
  induction l as [|a l IH]; [reflexivity|].
  rewrite fmap_cons, list_to_set_cons. cbn [List.length].
  rewrite size_union_alt, size_singleton.
  assert (size (list_to_set (userId <$> l) ∖ {[userId a]} : gset string)
          ≤ size (list_to_set (userId <$> l) : gset string))%nat as Hsub.
  { apply subseteq_size, subseteq_difference_l. reflexivity. }
  lia.
Qed.

Lemma distinct_users_pos (l : list UserLogDoc) : l ≠ [] → 1 ≤ distinct_users l.
Proof.
  destruct l as [|a l]; [congruence|]. intros _. unfold distinct_users.
  rewrite fmap_cons, list_to_set_cons.
  assert (size ({[userId a]} ∪ list_to_set (userId <$> l) : gset string) ≠ 0)%nat; [|lia].
  intros H0. apply size_empty_inv in H0.
  assert (userId a ∈ ({[userId a]} ∪ list_to_set (userId <$> l) : gset string))
    as Hin by set_solver.
  rewrite H0 in Hin. set_solver.
Qed.

Lemma count_login_logout (l : list UserLogDoc) :
  count_action "login" l + count_action "logout" l ≤ Z.of_nat (List.length l).
Proof.
  unfold count_action. induction l as [|a l IH]; [reflexivity|].
  rewrite !filter_cons. cbn [List.length].
  destruct (decide (action a = "login"%string)) as [E|];
    destruct (decide (action a = "logout"%string)) as [E'|]; cbn [List.length];
    [rewrite E in E'; discriminate|lia..].
Qed.

End deletion_laws.







(** X19: the four statistics are consistent with each other: none is
    negative, logins and logouts together are at most the total, the
    distinct users are at most the total and at least one as soon as a
    record is counted, and the total is at most the size of the
    collection. *)
Theorem getUserLogStats_bounds period w :
  ∃ s, stats_in (fst (getUserLogStats period w)) = Some s ∧
       0 ≤ loginCount s ∧ 0 ≤ logoutCount s ∧
       loginCount s + logoutCount s ≤ totalLogs s ∧
       uniqueUsers s ≤ totalLogs s ∧
       (1 ≤ totalLogs s → 1 ≤ uniqueUsers s) ∧
       (totalLogs s = 0 → s = mkStats 0 0 0 0) ∧
       totalLogs s ≤ Z.of_nat (List.length (logs w)).
Proof.
  rewrite getUserLogStats_run. eexists. split; [reflexivity|].
  set (l := recent _ _). cbn [loginCount logoutCount totalLogs uniqueUsers stats_of].
  split_and!.
  - unfold count_action. lia.
  - unfold count_action. lia.
  - apply count_login_logout.
  - apply distinct_users_le.
  - intros H. apply distinct_users_pos. intros E. rewrite E in H. cbn in H. lia.
  - intros H. destruct l; [reflexivity|]. cbn in H. lia.
  - apply inj_le. unfold l, recent. apply length_filter.
Qed.

(** X20: on the same collection and at the same instant a longer period
    never counts less: each of the four statistics for 24 hours is at most
    that for 7 days, which is at most that for 30 days. *)
Theorem getUserLogStats_monotone w s1 s7 s30 :
  stats_in (fst (getUserLogStats (Some "24h"%string) w)) = Some s1 →
  stats_in (fst (getUserLogStats (Some "7d"%string) w)) = Some s7 →
  stats_in (fst (getUserLogStats (Some "30d"%string) w)) = Some s30 →
  (totalLogs s1 ≤ totalLogs s7 ≤ totalLogs s30) ∧
  (loginCount s1 ≤ loginCount s7 ≤ loginCount s30) ∧
  (logoutCount s1 ≤ logoutCount s7 ≤ logoutCount s30) ∧
  (uniqueUsers s1 ≤ uniqueUsers s7 ≤ uniqueUsers s30).
Proof.
  rewrite !getUserLogStats_run. cbn [fst stats_in json].
  intros [= <-] [= <-] [= <-].
  cbn [loginCount logoutCount totalLogs uniqueUsers stats_of].
  assert (recent (clock w (ticks w) - window (Some "24h"%string)) (logs w)
            `sublist_of` recent (clock w (ticks w) - window (Some "7d"%string)) (logs w))
    as H1 by (apply filter_sublist_mono; intros x; cbn; lia).
  assert (recent (clock w (ticks w) - window (Some "7d"%string)) (logs w)
            `sublist_of` recent (clock w (ticks w) - window (Some "30d"%string)) (logs w))
    as H2 by (apply filter_sublist_mono; intros x; cbn; lia).
  split_and!; try (apply inj_le, sublist_length; assumption);
    try (apply count_action_sublist; assumption);
    apply distinct_users_sublist; assumption.
Qed.

Lemma getUserLogStats_monotone_witness :
  (0 ≤ 0 ≤ 1) ∧ (0 ≤ 0 ≤ 1) ∧ (0 ≤ 0 ≤ 0) ∧ (0 ≤ 0 ≤ 1).
Proof.
  apply (getUserLogStats_monotone
           (mkWorld Sample.directory [Sample.older_login]
              (λ _, 100 + 9 * 24 * 3600000) 0 Sample.oid 0 [])
           (mkStats 0 0 0 0) (mkStats 0 0 0 0) (mkStats 1 1 0 1)); vm_compute; reflexivity.
Defined.

Section client_served.

Lemma truthy_or_else a b : b ≠ ""%string → JS.truthy (Some (JS.or_else a b)) = true.
Proof. intros Hb. apply truthy_Some, or_else_nonempty, Hb. Qed.

(** The answers of [createUserLog], by status. *)
Lemma createUserLog_answers req w :
  (createUserLog req w =
     (mkResponse 400 (Message false "Missing required fields: userId, action, ipAddress"), w) ∧
   (JS.truthy (CreateReq.userId req) = false ∨
    JS.truthy (CreateReq.action req) = false ∨
    JS.truthy (CreateReq.ipAddress req) = false))
  ∨ (JS.truthy (CreateReq.userId req) = true ∧
     JS.truthy (CreateReq.action req) = true ∧
     JS.truthy (CreateReq.ipAddress req) = true ∧
     ((∃ w', createUserLog req w =
               (mkResponse 404 (Message false "User not found"), w'))
      ∨ (∃ r w', createUserLog req w =
                   (mkResponse 201 (Created "User log created successfully" r), w'))
      ∨ (∃ e w', createUserLog req w = (internal_error e, w')))).
Proof.
  destruct (JS.truthy (CreateReq.userId req)) eqn:Tu;
    [|left; split; [apply createUserLog_missing|]; auto].
  destruct (JS.truthy (CreateReq.action req)) eqn:Ta;
    [|left; split; [apply createUserLog_missing|]; auto].
  destruct (JS.truthy (CreateReq.ipAddress req)) eqn:Ti;
    [|left; split; [apply createUserLog_missing|]; auto].
  right. split_and!; try reflexivity.
  destruct (event_of_truthy req Tu Ta Ti) as (uid & act & ip & Hev).
  destruct (users w !! uid) as [u|] eqn:Hw.
  - destruct (createUserLog_known req w uid act ip u Hev Hw) as (d & w2 & _ & ->).
    destruct (UserLog.validate d); [right; left|right; right]; eauto.
  - left. rewrite (createUserLog_found _ _ _ _ _ Hev), Hw. eauto.
Qed.


End client_served.

(** X21: an event sent through the client cannot be refused for a missing
    [ipAddress]: the handler answers 400 exactly when the user object holds
    no identifier or the action is missing.  The client hands back the
    record exactly when the handler answers 201, and that record, the one
    appended to the collection, carries the address or [Unknown], the token
    name or [N/A], and as user agent the argument, else the browser's, else
    the header's, else [Unknown]. *)
Theorem client_createUserLog_served nav hdr user act ip tok ua w :
  let req := Client.create_body nav hdr user act ip tok ua in
  let sent := Client.createUserLog (Client.served createUserLog)
                nav hdr user act ip tok ua w in
  (status (fst (createUserLog req w)) = 400 ↔
   JS.truthy (JS.or_opt (ClientUser.id user) (ClientUser._id user)) = false ∨
   JS.truthy act = false) ∧
  (fst sent = Client.Undefined ↔ status (fst (createUserLog req w)) ≠ 201) ∧
  (∀ r, fst sent = Client.OneLog r →
     logs (snd sent) = logs w ++ [r] ∧
     act = Some (action r) ∧
     ipAddress r = JS.or_else ip "Unknown" ∧
     tokenName r = JS.or_else tok "N/A" ∧
     userAgent r =
       JS.or_else (JS.or_opt (Some (JS.or_else ua nav)) hdr) "Unknown").
Proof.
  intros req sent.
  assert (JS.truthy (CreateReq.ipAddress req) = true) as Hip
    by (apply truthy_or_else; discriminate).
  assert (∀ P : Prop,
            JS.truthy (CreateReq.userId req) = true →
            JS.truthy (CreateReq.action req) = true →
            JS.truthy (JS.or_opt (ClientUser.id user) (ClientUser._id user)) = false ∨
            JS.truthy act = false → P) as Hpresent.
  { intros P Tu Ta [H|H];
      [change (JS.truthy (CreateReq.userId req) = false) in H|
       change (JS.truthy (CreateReq.action req) = false) in H]; congruence. }
  unfold sent, Client.createUserLog, Client.served. fold req.
  destruct (createUserLog_answers req w)
    as [[E Hm]|(Tu & Ta & _ & [(w' & E)|[(r & w' & E)|(e & w' & E)]])];
    rewrite E; cbn [fst snd status json Client.ok Client.data_of internal_error].
  - split_and!.
    + split; [intros _|reflexivity].
      destruct Hm as [H|[H|H]]; [left; exact H|right; exact H|congruence].
    + split; [intros _; discriminate|reflexivity].
    + discriminate.
  - split_and!.
    + split; [discriminate|apply Hpresent; assumption].
    + split; [intros _; discriminate|reflexivity].
    + discriminate.
  - split_and!.
    + split; [discriminate|apply Hpresent; assumption].
    + split; [discriminate|intros H; destruct H; reflexivity].
    + intros r0 Hr0. cbn in Hr0. injection Hr0 as <-.
      destruct (createUserLog_201 _ _ _ _ _ E)
        as (uid & a & i & u & d & w2 & Hev & Hw & Hst & Hv & -> & -> & Hl & _).
      destruct (stamp_times_fields _ _ _ _ _ Hst) as (_ & _ & _ & F4 & F5 & F6 & F7 & _).
      destruct Hev as (_ & Ha & Hi & _).
      unfold stored. cbn [logs set_logs record_event tick mint action ipAddress tokenName
                            userAgent].
      rewrite F4, F5, F6, F7, Hl.
      cbn [initial_logData LogData.action LogData.ipAddress LogData.tokenName
             LogData.userAgent].
      change (CreateReq.action req) with act in Ha.
      change (CreateReq.ipAddress req) with (Some (JS.or_else ip "Unknown")) in Hi.
      injection Hi as <-.
      split_and!; [reflexivity|exact Ha|reflexivity| |reflexivity].
      change (CreateReq.tokenName req) with (Some (JS.or_else tok "N/A")).
      unfold JS.or_else at 1.
      destruct (String.eqb_spec (JS.or_else tok "N/A") ""); [|reflexivity].
      destruct (or_else_nonempty tok "N/A"); [discriminate|assumption].
  - split_and!.
    + split; [discriminate|apply Hpresent; assumption].
    + split; [intros _; discriminate|reflexivity].
    + discriminate.
Qed.



(** X23: the client's deletion answers [true] exactly when a record
    carried the identifier, and nothing otherwise, in which case the
    collection is as before; with distinct identifiers a second call for
    the same identifier answers nothing. *)
Theorem client_deleteUserLog_served logId w :
  let first := Client.deleteUserLog (Client.served deleteUserLog) logId w in
  (fst first = Some true ↔ ∃ r, r ∈ logs w ∧ _id r = logId) ∧
  (fst first = None ↔ ∀ r, r ∈ logs w → _id r ≠ logId) ∧
  (fst first = None → logs (snd first) = logs w) ∧
  (NoDup (_id <$> logs w) →
   fst (Client.deleteUserLog (Client.served deleteUserLog) logId (snd first)) = None).
Proof.
  intros first.
  assert (∀ w0, (∀ r, r ∈ logs w0 → _id r ≠ logId) →
            Client.deleteUserLog (Client.served deleteUserLog) logId w0 =
              (None, record_event (LogsRead (UserLog.by_id logId)) w0)) as Habsent.
  { intros w0 Hno. unfold Client.deleteUserLog, Client.served.
    destruct (deleteUserLog_shape logId w0) as [[_ E]|[(r & Hr & Hid) _]].
    - rewrite E. reflexivity.
    - destruct (Hno r Hr Hid). }
  assert (snd first = snd (deleteUserLog logId w)) as Hsnd.
  { unfold first, Client.deleteUserLog, Client.served.
    destruct (deleteUserLog logId w) as [resp w']. cbn.
    destruct (Client.ok (status resp)); reflexivity. }
  destruct (deleteUserLog_shape logId w) as [[Hno E]|[(r & Hr & Hid) E]].
  - assert (first = (None, record_event (LogsRead (UserLog.by_id logId)) w)) as Hf
      by (apply Habsent, Hno).
    rewrite Hf. cbn [fst snd]. split_and!.
    + split; [discriminate|]. intros (r & Hr & Hid). destruct (Hno r Hr Hid).
    + split; [intros _; exact Hno|reflexivity].
    + reflexivity.
    + intros _. rewrite Habsent; [reflexivity|exact Hno].
  - assert (fst first = Some true) as Hf.
    { unfold first, Client.deleteUserLog, Client.served. rewrite E. reflexivity. }
    rewrite Hf. split_and!.
    + split; [eauto|reflexivity].
    + split; [discriminate|]. intros Hno. destruct (Hno r Hr Hid).
    + discriminate.
    + intros Hnd. rewrite Hsnd, Habsent; [reflexivity|].
      intros x. rewrite (deleteUserLog_logs _ _ Hnd), list_elem_of_filter. tauto.
Qed.

Section guards.

Import Router.


(** One step of [follow]. *)
Lemma follow_step fuel a path g p :
  route_of path = Some (g, p) →
  follow fuel a path =
    match wrap a g p with
    | Children p => Shows path p
    | Navigate to =>
        match fuel with
        | O => Redirecting to
        | S fuel => follow fuel a to
        end
    end.
Proof. intros H. destruct fuel; cbn [follow]; rewrite H; reflexivity. Qed.


Lemma route_cases path e :
  (path, e) ∈ routes →
  route_of path = Some e.
Proof.
  unfold routes. rewrite !elem_of_cons, elem_of_nil.
  intros H. repeat (destruct H as [[= -> ->]|H]; [reflexivity|]). destruct H.
Qed.

End guards.



(** X25: a visit to any route settles after at most one redirection,
    unless the visitor is authenticated with a stored role of [admin] that
    [hasRole] does not grant: a visitor who is not authenticated sees the
    public page asked for, or the login page in place of a protected one;
    an authenticated visitor sees the protected page asked for when the
    role allows it, and the dashboard of the stored role otherwise. *)
Theorem visit_settles a path g p fuel :
  (path, (g, p)) ∈ Router.routes →
  (Router.isAuthenticated a = true → Router.userRole a = Some "admin"%string →
   Router.hasRole a "admin" = true) →
  ∃ path' p',
    Router.follow (S fuel) a path = Router.Shows path' p' ∧
    (path' = path ∨
     (Router.isAuthenticated a = false ∧ path' = "/login"%string ∧ p' = Router.Login) ∨
     (Router.isAuthenticated a = true ∧ path' = Router.redirectPath a)).
Proof.
  intros Hin Hrole. apply route_cases in Hin.
  rewrite (follow_step _ _ _ _ _ Hin).
  assert (Router.isAuthenticated a = true →
          ∃ p', Router.follow fuel a (Router.redirectPath a)
                = Router.Shows (Router.redirectPath a) p') as Hdash.
  { intros Ha. unfold Router.redirectPath.
    destruct (bool_decide_reflect (Router.userRole a = Some "admin"%string)) as [E|_].
    - rewrite (follow_step _ a "/admin/dashboard" (Router.Protects (Some "admin"%string))
                 Router.Dashboard eq_refl).
      cbn. unfold Router.ProtectedRoute. cbn. rewrite Ha, (Hrole Ha E). cbn. eauto.
    - rewrite (follow_step _ a "/user/dashboard" (Router.Protects None)
                 Router.UserDashboard eq_refl).
      cbn. unfold Router.ProtectedRoute. rewrite Ha. cbn. eauto. }
  destruct g as [|required]; cbn [Router.wrap];
    unfold Router.AuthRedirect, Router.ProtectedRoute.
  - destruct (Router.isAuthenticated a) eqn:Ha.
    + destruct (Hdash eq_refl) as [p' ->]. eauto 10.
    + eauto 10.
  - destruct (Router.isAuthenticated a) eqn:Ha; cbn.
    + destruct (JS.truthy required && negb (Router.hasRole a (default ""%string required)))%bool.
      * destruct (Hdash eq_refl) as [p' ->]. eauto 10.
      * eauto 10.
    + rewrite (follow_step fuel a "/login" Router.Redirects Router.Login eq_refl).
      cbn. unfold Router.AuthRedirect. rewrite Ha. eauto 10.
Qed.

Lemma visit_settles_witness :
  ∃ path' p',
    Router.follow 1 (Router.mkAuth true (λ _, false) (Some "user"%string))
      "/admin/user-logs" = Router.Shows path' p' ∧
    (path' = "/admin/user-logs"%string ∨
     (Router.isAuthenticated (Router.mkAuth true (λ _, false) (Some "user"%string)) = false ∧
      path' = "/login"%string ∧ p' = Router.Login) ∨
     (Router.isAuthenticated (Router.mkAuth true (λ _, false) (Some "user"%string)) = true ∧
      path' = Router.redirectPath (Router.mkAuth true (λ _, false) (Some "user"%string)))).
Proof.
  apply (visit_settles (Router.mkAuth true (λ _, false) (Some "user"%string))
           "/admin/user-logs" (Router.Protects (Some "admin"%string)) Router.UserLogPage 0).
  - unfold Router.routes. rewrite !elem_of_cons. tauto.
  - discriminate.
Defined.



Section task_filter.

Import Text.

Lemma is_space_fold_case c : is_space (Regex.fold_case c) = is_space c.
Proof.
  destruct c as [[] [] [] [] [] [] [] []]; reflexivity.
Qed.

Lemma trim_start_fold_case l :
  trim_start (map Regex.fold_case l) = map Regex.fold_case (trim_start l).
Proof.
  induction l as [|c l IH]; [reflexivity|].
  cbn [map trim_start]. rewrite is_space_fold_case.
  destruct (is_space c); [exact IH|reflexivity].
Qed.

Lemma trim_toLowerCase s : trim (toLowerCase s) = toLowerCase (trim s).
Proof.
  unfold trim, toLowerCase.
  rewrite !list_ascii_of_string_of_list_ascii.
  rewrite trim_start_fold_case, <- map_rev, trim_start_fold_case, map_rev.
  reflexivity.
Qed.

Lemma toLowerCase_empty s : toLowerCase s = ""%string ↔ s = ""%string.
Proof.
  split; [|intros ->; reflexivity].
  destruct s as [|c s]; [reflexivity|discriminate].
Qed.

Lemma truthy_toLowerCase s :
  JS.truthy (Some (toLowerCase s)) = JS.truthy (Some s).
Proof.
  unfold JS.truthy.
  destruct (String.eqb_spec s "") as [->|Hne]; [reflexivity|].
  destruct (String.eqb_spec (toLowerCase s) "") as [E|_]; [|reflexivity].
  destruct (Hne (proj1 (toLowerCase_empty s) E)).
Qed.

Lemma filter_filter_same {A} (P : A → Prop) `{∀ x, Decision (P x)} (l : list A) :
  filter P (filter P l) = filter P l.
Proof.
  apply filter_all. intros x Hx. apply list_elem_of_filter in Hx. tauto.
Qed.

End task_filter.

(** X27: the hook only ever narrows the list: the filtered tasks are the
    given tasks with some left out, in their order; filtering what has been
    filtered changes nothing; and after [clearFilters], as in the initial
    state, every task is shown. *)
Theorem filteredTasks_narrows tasks st :
  useFilters.filteredTasks tasks st `sublist_of` tasks ∧
  useFilters.filteredTasks (useFilters.filteredTasks tasks st) st =
    useFilters.filteredTasks tasks st ∧
  useFilters.filteredTasks tasks (useFilters.clearFilters st) = tasks ∧
  useFilters.filteredTasks tasks useFilters.initial = tasks.
Proof.
  split_and!; try reflexivity.
  - unfold useFilters.filteredTasks. cbv zeta.
    destruct (negb _); destruct (JS.truthy _);
      repeat (etransitivity; [apply sublist_filter|]); reflexivity.
  - unfold useFilters.filteredTasks. cbv zeta.
    destruct (negb _); destruct (JS.truthy _); try reflexivity.
    + rewrite (list_filter_filter _ _ tasks).
      rewrite (list_filter_filter _ _ (filter _ tasks)).
      rewrite (list_filter_filter _ _ tasks).
      apply list_filter_iff. intros x. tauto.
    + apply filter_filter_same.
    + apply filter_filter_same.
Qed.

(** X28: the search text counts only up to the case of its letters and
    the white space around it: two texts that are equal once trimmed and
    lowered select the same tasks. *)
Theorem filteredTasks_query_insensitive tasks status q1 q2 :
  Text.toLowerCase (Text.trim q1) = Text.toLowerCase (Text.trim q2) →
  useFilters.filteredTasks tasks (useFilters.mkState status q1) =
  useFilters.filteredTasks tasks (useFilters.mkState status q2).
Proof.
  intros Hq. unfold useFilters.filteredTasks.
  cbn [useFilters.statusFilter useFilters.searchQuery].
  rewrite !trim_toLowerCase, Hq.
  rewrite <- (truthy_toLowerCase (Text.trim q1)), Hq, truthy_toLowerCase.
  reflexivity.
Qed.

Lemma filteredTasks_query_insensitive_witness :
  useFilters.filteredTasks
    [Task.mk "open" "Fix login" "the form"; Task.mk "done" "Write docs" "prefix them"]
    (useFilters.mkState "all" "  FiX ") =
  useFilters.filteredTasks
    [Task.mk "open" "Fix login" "the form"; Task.mk "done" "Write docs" "prefix them"]
    (useFilters.mkState "all" "fix").
Proof.
  apply (filteredTasks_query_insensitive
           [Task.mk "open" "Fix login" "the form"; Task.mk "done" "Write docs" "prefix them"]
           "all" "  FiX " "fix").
  reflexivity.
Defined.

Section client_sessions.

Lemma create_body_event nav hdr user act ip tok ua uid :
  JS.or_opt (ClientUser.id user) (ClientUser._id user) = Some uid → uid ≠ ""%string →
  act ≠ ""%string →
  event_of (Client.create_body nav hdr user (Some act) ip tok ua) uid act
    (JS.or_else ip "Unknown").
Proof.
  intros Hu Hne Ha. unfold event_of, Client.create_body. cbn.
  split_and!; try assumption; try reflexivity.
  apply or_else_nonempty. discriminate.
Qed.

End client_sessions.

(** X29: a session recorded through the client: [logUserLogin] and then
    [logUserLogout] for the same user object, with no later login of that
    user in the collection, store two records, and the logout carries as
    [sessionDuration] the time from the login's [loginTime] to the clock
    read that follows the search for it. *)
Theorem client_session nav hdr user ip tok ip' tok' w uid u :
  JS.or_opt (ClientUser.id user) (ClientUser._id user) = Some uid → uid ≠ ""%string →
  users w !! uid = Some u → snapshot_ok u →
  (∀ l t, l ∈ logs w → login_of (UserDoc._id u) t l → t ≤ clock w (ticks w)) →
  ∃ r1 w1 r2 w2,
    Client.logUserLogin (Client.served createUserLog) nav hdr user ip tok w =
      (Client.OneLog r1, w1) ∧
    Client.logUserLogout (Client.served createUserLog) nav hdr user ip' tok' w1 =
      (Client.OneLog r2, w2) ∧
    logs w2 = logs w ++ [r1; r2] ∧
    action r1 = "login"%string ∧ action r2 = "logout"%string ∧
    loginTime r1 = Some (clock w (ticks w)) ∧
    sessionDuration r2 = Some (clock w (3 + ticks w) - clock w (ticks w)).
Proof.
  intros Hu Hne Hw Hs Hle.
  assert (event_of (Client.create_body nav hdr user (Some "login"%string) ip tok None)
            uid "login" (JS.or_else ip "Unknown")) as Hin
    by (apply create_body_event; [assumption..|discriminate]).
  assert (event_of (Client.create_body nav hdr user (Some "logout"%string) ip' tok' None)
            uid "logout" (JS.or_else ip' "Unknown")) as Hout
    by (apply create_body_event; [assumption..|discriminate]).
  unfold Client.logUserLogin, Client.logUserLogout, Client.createUserLog, Client.served.
  rewrite (createUserLog_login_run _ _ _ _ _ Hin Hw Hs).
  cbn [status json Client.ok Client.data_of].
  set (r1 := stored (oids w (minted w)) _ (clock w (S (ticks w)))).
  set (w1 := set_logs (logs w ++ [r1]) _).
  destruct (createUserLog_logout _ w1 uid _ u Hout Hw Hs)
    as (r2 & w2 & Hrun & Hlogs & _ & Hact & _ & _ & Hd).
  exists r1, w1, r2, w2. rewrite Hrun. cbn [status json Client.ok Client.data_of].
  change (logs w1) with (logs w ++ [r1]) in Hd, Hlogs.
  rewrite (newest_login_found _ _ r1 (clock w (ticks w))) in Hd
    by (first [split_and!; reflexivity|exact Hle]).
  split_and!; try reflexivity.
  - rewrite Hlogs, <- app_assoc. reflexivity.
  - exact Hact.
  - exact Hd.
Qed.

Lemma client_session_witness :
  ∃ r1 w1 r2 w2,
    Client.logUserLogin (Client.served createUserLog) "Firefox" None
      (ClientUser.mk None (Some "u1"%string)) None None
      (Sample.world [Sample.old_login] Sample.steady_clock) =
      (Client.OneLog r1, w1) ∧
    Client.logUserLogout (Client.served createUserLog) "Firefox" None
      (ClientUser.mk None (Some "u1"%string)) None None w1 =
      (Client.OneLog r2, w2) ∧
    logs w2 = [Sample.old_login] ++ [r1; r2] ∧
    action r1 = "login"%string ∧ action r2 = "logout"%string ∧
    loginTime r1 = Some 1000 ∧
    sessionDuration r2 = Some (1030 - 1000).
Proof.
  apply (client_session "Firefox" None (ClientUser.mk None (Some "u1"%string))
           None None None None
           (Sample.world [Sample.old_login] Sample.steady_clock) "u1" Sample.bob).
  - reflexivity.
  - discriminate.
  - reflexivity.
  - split; [discriminate|]. vm_compute. right. left.
  - intros l t Hl (_ & _ & Ht). vm_compute in Hl.
    apply list_elem_of_singleton in Hl. subst l. injection Ht as <-. vm_compute. discriminate.
Defined.

